(** * Antigravity AQI edge node: the control loop of esp32_aqi_node.ino

    A shallow embedding of the firmware's global state, its periodic tasks,
    the WebSocket command handler and the calibration routine, followed by
    the properties of the device specification that can be settled on it.

    Conventions.
    - [int] values are kept in [Z]; subtraction on them is written with
      [int_sub], which wraps to 32 bits as the ESP32 does.
    - [unsigned long] values (the [millis()] clock and the three task
      timestamps) are kept in [Z] in the range 0 .. 2^32-1; [ulong_add] and
      [ulong_sub] wrap modulo 2^32.
    - Everything the hardware or a library hands to the firmware (ADC
      samples, the DHT11 reading, the WiFi status, the clock, the decoded
      JSON document) is an input of the embedded function.
    - Everything the firmware hands to the hardware or to a library (pin
      writes, LCD, serial, WebSocket, WiFi calls) is recorded in an event
      trace, in program order. *)

From Stdlib Require Import ZArith List String Ascii Bool Lia Sorted.
From Stdlib Require Import Floats.SpecFloat.
Import ListNotations.
Local Open Scope string_scope.
Local Open Scope list_scope.
Local Open Scope Z_scope.

(* ================================================================== *)
(** ** C integer arithmetic on the ESP32 *)
(* ================================================================== *)

Module CInt.

Definition INT_MIN : Z := - 2 ^ 31.
Definition INT_MAX : Z := 2 ^ 31 - 1.
Definition ULONG_MOD : Z := 2 ^ 32.

(** Two's complement reduction of a mathematical integer to [int]. *)
Definition wrap_int (z : Z) : Z := (z + 2 ^ 31) mod 2 ^ 32 - 2 ^ 31.

(** Reduction to [unsigned long] (32 bits on this target). *)
Definition wrap_ulong (z : Z) : Z := z mod ULONG_MOD.

Definition int_range (z : Z) : Prop := INT_MIN <= z <= INT_MAX.

Definition int_sub (a b : Z) : Z := wrap_int (a - b).
Definition ulong_add (a b : Z) : Z := wrap_ulong (a + b).
Definition ulong_sub (a b : Z) : Z := wrap_ulong (a - b).

(** Arduino's [max(a, b)], [constrain(amt, low, high)] and
    [map(x, in_min, in_max, out_min, out_max)]. *)
Definition max (a b : Z) : Z := if a >? b then a else b.

Definition constrain (amt low high : Z) : Z :=
  if amt <? low then low else if amt >? high then high else amt.

Definition map (x in_min in_max out_min out_max : Z) : Z :=
  Z.quot ((x - in_min) * (out_max - out_min)) (in_max - in_min) + out_min.

End CInt.
Import CInt.

Arguments wrap_int : simpl never.
Arguments wrap_ulong : simpl never.
Arguments max : simpl never.
Arguments constrain : simpl never.
Arguments map : simpl never.

(* ================================================================== *)
(** ** Hardware and library vocabulary *)
(* ================================================================== *)

(** Section 1 of the sketch: the pins. *)
Inductive pin : Type :=
| PIN_MQ135 | PIN_MQ8 | PIN_MQ9 | PIN_DUST | PIN_DHT
| PIN_FAN_PWM | PIN_WIFI_LED | PIN_ML_LED.

Definition pin_number (p : pin) : Z :=
  match p with
  | PIN_MQ135 => 34 | PIN_MQ8 => 35 | PIN_MQ9 => 32 | PIN_DUST => 33
  | PIN_DHT => 4
  | PIN_FAN_PWM => 26 | PIN_WIFI_LED => 18 | PIN_ML_LED => 19
  end.

Definition HIGH : bool := true.
Definition LOW : bool := false.

(** Section 2 of the sketch: thresholds and periods. *)
Definition MQ9_FAILSAFE_THRESHOLD : Z := 3000.
Definition sensorInterval : Z := 5000.
Definition screenInterval : Z := 3000.
Definition wifiRetryInterval : Z := 15000.

(** [wl_status_t] of the WiFi library; the sketch only compares it with
    [WL_CONNECTED]. *)
Inductive wl_status_t : Type :=
| WL_NO_SHIELD | WL_IDLE_STATUS | WL_NO_SSID_AVAIL | WL_SCAN_COMPLETED
| WL_CONNECTED | WL_CONNECT_FAILED | WL_CONNECTION_LOST | WL_DISCONNECTED.

Definition is_WL_CONNECTED (s : wl_status_t) : bool :=
  match s with WL_CONNECTED => true | _ => false end.

(** [WStype_t] of the WebSockets library, the cases the handler lists. *)
Inductive WStype_t : Type :=
| WStype_DISCONNECTED | WStype_CONNECTED | WStype_TEXT
| WStype_BIN | WStype_PING | WStype_PONG | WStype_ERROR.

(** [float] values are IEEE numbers; the sketch only stores them, prints
    them and tests them with [isnan]. *)
Definition float : Type := spec_float.

Definition isnan (f : float) : bool :=
  match f with S754_nan => true | _ => false end.

(** The JSON library, as far as the sketch calls it:
    [deserializeJson(doc, payload, length)], [doc.containsKey(k)],
    [doc[k]] read into an [int], and [doc[k] == "literal"]. A decoding
    error carries the text of [error.f_str()]. *)
Class JsonLib (JsonDocument : Type) : Type := {
  deserializeJson : string -> JsonDocument + string;
  containsKey : JsonDocument -> string -> bool;
  as_int : JsonDocument -> string -> Z;
  eq_literal : JsonDocument -> string -> string -> bool
}.

(* ================================================================== *)
(** ** Device state: the globals of section 3 and the output latches *)
(* ================================================================== *)

Record Device : Type := mkDevice {
  (* timing variables *)
  lastSensorRead : Z;
  lastScreenChange : Z;
  currentScreen : Z;
  lastWiFiRetry : Z;
  (* sensor values *)
  mq135Val : Z;
  mq8Val : Z;
  mq9Val : Z;
  dustVal : Z;
  temperature : float;
  humidity : float;
  (* calibration offsets *)
  mq135Offset : Z;
  mq8Offset : Z;
  mq9Offset : Z;
  dustOffset : Z;
  (* actuator duty *)
  currentFanSpeed : Z;
  (* levels last written to the three output pins *)
  out_FAN_PWM : Z;
  out_WIFI_LED : bool;
  out_ML_LED : bool
}.

(** The globals as their initialisers leave them; outputs are low at
    power-on. *)
Definition power_on : Device :=
  {| lastSensorRead := 0; lastScreenChange := 0; currentScreen := 1;
     lastWiFiRetry := 0;
     mq135Val := 0; mq8Val := 0; mq9Val := 0; dustVal := 0;
     temperature := S754_zero false; humidity := S754_zero false;
     mq135Offset := 0; mq8Offset := 0; mq9Offset := 0; dustOffset := 0;
     currentFanSpeed := 0;
     out_FAN_PWM := 0; out_WIFI_LED := LOW; out_ML_LED := LOW |}.

(** Assignments to single globals. *)
Definition set_lastSensorRead (v : Z) (d : Device) : Device :=
  mkDevice v (lastScreenChange d) (currentScreen d) (lastWiFiRetry d)
    (mq135Val d) (mq8Val d) (mq9Val d) (dustVal d) (temperature d) (humidity d)
    (mq135Offset d) (mq8Offset d) (mq9Offset d) (dustOffset d)
    (currentFanSpeed d) (out_FAN_PWM d) (out_WIFI_LED d) (out_ML_LED d).

Definition set_lastScreenChange (v : Z) (d : Device) : Device :=
  mkDevice (lastSensorRead d) v (currentScreen d) (lastWiFiRetry d)
    (mq135Val d) (mq8Val d) (mq9Val d) (dustVal d) (temperature d) (humidity d)
    (mq135Offset d) (mq8Offset d) (mq9Offset d) (dustOffset d)
    (currentFanSpeed d) (out_FAN_PWM d) (out_WIFI_LED d) (out_ML_LED d).

Definition set_currentScreen (v : Z) (d : Device) : Device :=
  mkDevice (lastSensorRead d) (lastScreenChange d) v (lastWiFiRetry d)
    (mq135Val d) (mq8Val d) (mq9Val d) (dustVal d) (temperature d) (humidity d)
    (mq135Offset d) (mq8Offset d) (mq9Offset d) (dustOffset d)
    (currentFanSpeed d) (out_FAN_PWM d) (out_WIFI_LED d) (out_ML_LED d).

Definition set_lastWiFiRetry (v : Z) (d : Device) : Device :=
  mkDevice (lastSensorRead d) (lastScreenChange d) (currentScreen d) v
    (mq135Val d) (mq8Val d) (mq9Val d) (dustVal d) (temperature d) (humidity d)
    (mq135Offset d) (mq8Offset d) (mq9Offset d) (dustOffset d)
    (currentFanSpeed d) (out_FAN_PWM d) (out_WIFI_LED d) (out_ML_LED d).

Definition set_mq135Val (v : Z) (d : Device) : Device :=
  mkDevice (lastSensorRead d) (lastScreenChange d) (currentScreen d)
    (lastWiFiRetry d)
    v (mq8Val d) (mq9Val d) (dustVal d) (temperature d) (humidity d)
    (mq135Offset d) (mq8Offset d) (mq9Offset d) (dustOffset d)
    (currentFanSpeed d) (out_FAN_PWM d) (out_WIFI_LED d) (out_ML_LED d).

Definition set_mq8Val (v : Z) (d : Device) : Device :=
  mkDevice (lastSensorRead d) (lastScreenChange d) (currentScreen d)
    (lastWiFiRetry d)
    (mq135Val d) v (mq9Val d) (dustVal d) (temperature d) (humidity d)
    (mq135Offset d) (mq8Offset d) (mq9Offset d) (dustOffset d)
    (currentFanSpeed d) (out_FAN_PWM d) (out_WIFI_LED d) (out_ML_LED d).

Definition set_mq9Val (v : Z) (d : Device) : Device :=
  mkDevice (lastSensorRead d) (lastScreenChange d) (currentScreen d)
    (lastWiFiRetry d)
    (mq135Val d) (mq8Val d) v (dustVal d) (temperature d) (humidity d)
    (mq135Offset d) (mq8Offset d) (mq9Offset d) (dustOffset d)
    (currentFanSpeed d) (out_FAN_PWM d) (out_WIFI_LED d) (out_ML_LED d).

Definition set_dustVal (v : Z) (d : Device) : Device :=
  mkDevice (lastSensorRead d) (lastScreenChange d) (currentScreen d)
    (lastWiFiRetry d)
    (mq135Val d) (mq8Val d) (mq9Val d) v (temperature d) (humidity d)
    (mq135Offset d) (mq8Offset d) (mq9Offset d) (dustOffset d)
    (currentFanSpeed d) (out_FAN_PWM d) (out_WIFI_LED d) (out_ML_LED d).

Definition set_temperature (v : float) (d : Device) : Device :=
  mkDevice (lastSensorRead d) (lastScreenChange d) (currentScreen d)
    (lastWiFiRetry d)
    (mq135Val d) (mq8Val d) (mq9Val d) (dustVal d) v (humidity d)
    (mq135Offset d) (mq8Offset d) (mq9Offset d) (dustOffset d)
    (currentFanSpeed d) (out_FAN_PWM d) (out_WIFI_LED d) (out_ML_LED d).

Definition set_humidity (v : float) (d : Device) : Device :=
  mkDevice (lastSensorRead d) (lastScreenChange d) (currentScreen d)
    (lastWiFiRetry d)
    (mq135Val d) (mq8Val d) (mq9Val d) (dustVal d) (temperature d) v
    (mq135Offset d) (mq8Offset d) (mq9Offset d) (dustOffset d)
    (currentFanSpeed d) (out_FAN_PWM d) (out_WIFI_LED d) (out_ML_LED d).

Definition set_mq135Offset (v : Z) (d : Device) : Device :=
  mkDevice (lastSensorRead d) (lastScreenChange d) (currentScreen d)
    (lastWiFiRetry d)
    (mq135Val d) (mq8Val d) (mq9Val d) (dustVal d) (temperature d) (humidity d)
    v (mq8Offset d) (mq9Offset d) (dustOffset d)
    (currentFanSpeed d) (out_FAN_PWM d) (out_WIFI_LED d) (out_ML_LED d).

Definition set_mq8Offset (v : Z) (d : Device) : Device :=
  mkDevice (lastSensorRead d) (lastScreenChange d) (currentScreen d)
    (lastWiFiRetry d)
    (mq135Val d) (mq8Val d) (mq9Val d) (dustVal d) (temperature d) (humidity d)
    (mq135Offset d) v (mq9Offset d) (dustOffset d)
    (currentFanSpeed d) (out_FAN_PWM d) (out_WIFI_LED d) (out_ML_LED d).

Definition set_mq9Offset (v : Z) (d : Device) : Device :=
  mkDevice (lastSensorRead d) (lastScreenChange d) (currentScreen d)
    (lastWiFiRetry d)
    (mq135Val d) (mq8Val d) (mq9Val d) (dustVal d) (temperature d) (humidity d)
    (mq135Offset d) (mq8Offset d) v (dustOffset d)
    (currentFanSpeed d) (out_FAN_PWM d) (out_WIFI_LED d) (out_ML_LED d).

Definition set_dustOffset (v : Z) (d : Device) : Device :=
  mkDevice (lastSensorRead d) (lastScreenChange d) (currentScreen d)
    (lastWiFiRetry d)
    (mq135Val d) (mq8Val d) (mq9Val d) (dustVal d) (temperature d) (humidity d)
    (mq135Offset d) (mq8Offset d) (mq9Offset d) v
    (currentFanSpeed d) (out_FAN_PWM d) (out_WIFI_LED d) (out_ML_LED d).

Definition set_currentFanSpeed (v : Z) (d : Device) : Device :=
  mkDevice (lastSensorRead d) (lastScreenChange d) (currentScreen d)
    (lastWiFiRetry d)
    (mq135Val d) (mq8Val d) (mq9Val d) (dustVal d) (temperature d) (humidity d)
    (mq135Offset d) (mq8Offset d) (mq9Offset d) (dustOffset d)
    v (out_FAN_PWM d) (out_WIFI_LED d) (out_ML_LED d).

Definition set_out_FAN_PWM (v : Z) (d : Device) : Device :=
  mkDevice (lastSensorRead d) (lastScreenChange d) (currentScreen d)
    (lastWiFiRetry d)
    (mq135Val d) (mq8Val d) (mq9Val d) (dustVal d) (temperature d) (humidity d)
    (mq135Offset d) (mq8Offset d) (mq9Offset d) (dustOffset d)
    (currentFanSpeed d) v (out_WIFI_LED d) (out_ML_LED d).

Definition set_out_WIFI_LED (v : bool) (d : Device) : Device :=
  mkDevice (lastSensorRead d) (lastScreenChange d) (currentScreen d)
    (lastWiFiRetry d)
    (mq135Val d) (mq8Val d) (mq9Val d) (dustVal d) (temperature d) (humidity d)
    (mq135Offset d) (mq8Offset d) (mq9Offset d) (dustOffset d)
    (currentFanSpeed d) (out_FAN_PWM d) v (out_ML_LED d).

Definition set_out_ML_LED (v : bool) (d : Device) : Device :=
  mkDevice (lastSensorRead d) (lastScreenChange d) (currentScreen d)
    (lastWiFiRetry d)
    (mq135Val d) (mq8Val d) (mq9Val d) (dustVal d) (temperature d) (humidity d)
    (mq135Offset d) (mq8Offset d) (mq9Offset d) (dustOffset d)
    (currentFanSpeed d) (out_FAN_PWM d) (out_WIFI_LED d) v.

(* ================================================================== *)
(** ** Inputs and outputs *)
(* ================================================================== *)

(** What the hardware answers while one piece of code runs: the uptime in
    milliseconds (of which [millis()] returns the low 32 bits), one ADC
    sample per channel, one DHT11 reading, and the link states. *)
Record Env : Type := mkEnv {
  uptime : Z;
  adc : pin -> Z;
  dht_temperature : float;
  dht_humidity : float;
  wifi_status : wl_status_t;
  ws_isConnected : bool
}.

Definition millis (e : Env) : Z := wrap_ulong (uptime e).
Definition analogRead (e : Env) (p : pin) : Z := adc e p.

(** The outbound telemetry document of [readAndSendSensors]. *)
Record TelemetryFrame : Type := mkFrame {
  f_mq135 : Z; f_mq8 : Z; f_mq9 : Z; f_dust : Z;
  f_temperature : float; f_humidity : float;
  f_fan_speed : Z
}.

(** A printed value. *)
Inductive arg : Type :=
| Str (s : string)
| Int (z : Z)
| Flt (f : float) (digits : Z)
| Json (f : TelemetryFrame)
| LocalIP.

(** A text frame sent on the WebSocket. *)
Inductive ws_text : Type :=
| Identification (status device_id : string)
| Telemetry (f : TelemetryFrame).

Inductive event : Type :=
| EanalogWrite (p : pin) (v : Z)
| EdigitalWrite (p : pin) (v : bool)
| Eprint (a : arg)                       (* Serial.print *)
| Eprintln (a : list arg)                (* Serial.println of a concatenation *)
| Eprintf (fmt : string) (a : list arg)  (* Serial.printf *)
| Elcd_clear
| Elcd_setCursor (col row : Z)
| Elcd_print (a : arg)
| EsendTXT (m : ws_text)
| EWiFi_disconnect
| EWiFi_begin
| Edelay (ms : Z)
| Ecall (name : string).                 (* a one-off library set-up call *)

(** Line feed, for the format strings that end in one. *)
Definition LF : string := String (ascii_of_nat 10) EmptyString.

(* ================================================================== *)
(** ** Actions: state passing with an event trace *)
(* ================================================================== *)

Definition Action : Type := Device -> Device * list event.

Definition skip : Action := fun d => (d, []).
Definition emit (e : event) : Action := fun d => (d, [e]).
Definition assign (f : Device -> Device) : Action := fun d => (f d, []).

Definition seq (a b : Action) : Action :=
  fun d => let (d1, t1) := a d in
           let (d2, t2) := b d1 in (d2, t1 ++ t2).

Notation "a ;; b" := (seq a b) (at level 61, right associativity).

(** A statement whose operands read the current state. *)
Definition reading (k : Device -> Action) : Action := fun d => k d d.

Definition If (c : bool) (a b : Action) : Action := if c then a else b.

(** Pin writes update the latch and are traced. *)
Definition analogWrite (p : pin) (v : Z) : Action :=
  match p with
  | PIN_FAN_PWM => assign (set_out_FAN_PWM v)
  | _ => skip
  end ;; emit (EanalogWrite p v).

Definition digitalWrite (p : pin) (v : bool) : Action :=
  match p with
  | PIN_WIFI_LED => assign (set_out_WIFI_LED v)
  | PIN_ML_LED => assign (set_out_ML_LED v)
  | _ => skip
  end ;; emit (EdigitalWrite p v).

Definition run (a : Action) (d : Device) : Device := fst (a d).
Definition trace (a : Action) (d : Device) : list event := snd (a d).

(** Shorthands for the library calls that only leave a trace. *)
Definition Serial_println (s : string) : Action := emit (Eprintln [Str s]).
Definition Serial_print (s : string) : Action := emit (Eprint (Str s)).
Definition Serial_printf (fmt : string) (a : list arg) : Action :=
  emit (Eprintf fmt a).
Definition lcd_clear : Action := emit Elcd_clear.
Definition lcd_setCursor (col row : Z) : Action := emit (Elcd_setCursor col row).
Definition lcd_print (a : arg) : Action := emit (Elcd_print a).
Definition delay (ms : Z) : Action := emit (Edelay ms).
Definition call (name : string) : Action := emit (Ecall name).

(* ================================================================== *)
(** ** The firmware *)
(* ================================================================== *)

(** One event delivered to [webSocketEvent] while [webSocket.loop()] runs,
    with what the hardware answers during that callback. *)
Record WsEvent : Type := mkWsEvent {
  ev_env : Env;
  ev_type : WStype_t;
  ev_payload : string
}.

(** The inputs of one pass through [loop()]: the events the WebSocket client
    delivers at its start, and what the hardware answers afterwards. *)
Record LoopInput : Type := mkLoopInput {
  inbox : list WsEvent;
  env : Env
}.

Section Firmware.

Context {JsonDocument : Type} {lib : JsonLib JsonDocument}.

(** *** 8. Local fail-safe controller *)
Definition controlFailSafe : Action :=
  reading (fun d =>
    If (mq9Val d >? MQ9_FAILSAFE_THRESHOLD)
      (assign (set_currentFanSpeed 255) ;;
       reading (fun d => analogWrite PIN_FAN_PWM (currentFanSpeed d)) ;;
       digitalWrite PIN_ML_LED HIGH ;;
       Serial_println "WARNING: Local Failsafe Activated! Fan 100%")
      (assign (set_currentFanSpeed 0) ;;
       reading (fun d => analogWrite PIN_FAN_PWM (currentFanSpeed d)) ;;
       digitalWrite PIN_ML_LED LOW)).

(** *** 9. Local UI: the two rolling LCD pages *)
Definition handleScreenUpdate (e : Env) : Action :=
  lcd_clear ;;
  reading (fun d =>
    If (currentScreen d =? 1)
      (lcd_setCursor 0 0 ;;
       lcd_print (Str "Q135:") ;; lcd_print (Int (mq135Val d)) ;;
       lcd_print (Str " Q8:") ;; lcd_print (Int (mq8Val d)) ;;
       lcd_setCursor 0 1 ;;
       lcd_print (Str "Q9:") ;; lcd_print (Int (mq9Val d)) ;;
       lcd_print (Str " D:") ;; lcd_print (Int (dustVal d)))
      (lcd_setCursor 0 0 ;;
       lcd_print (Str "T:") ;; lcd_print (Flt (temperature d) 1) ;;
       lcd_print (Str "C H:") ;; lcd_print (Flt (humidity d) 0) ;;
       lcd_print (Str "%") ;;
       lcd_setCursor 0 1 ;;
       let fanPct := map (currentFanSpeed d) 0 255 0 100 in
       lcd_print (Str "Fan:") ;; lcd_print (Int fanPct) ;;
       lcd_print (Str "% ") ;;
       If (is_WL_CONNECTED (wifi_status e))
         (lcd_print (Str "[ON]"))
         (lcd_print (Str "[XX]")))).

(** *** 11. Calibration logic *)
Definition calibrateSensors (e : Env) : Action :=
  Serial_println "Calibration triggered remotely..." ;;
  lcd_clear ;;
  lcd_setCursor 0 0 ;;
  lcd_print (Str "Calibrating...") ;;
  lcd_setCursor 0 1 ;;
  lcd_print (Str "Please wait...") ;;
  let cleanAirFloor := 200 in
  assign (set_mq135Offset (int_sub (analogRead e PIN_MQ135) cleanAirFloor)) ;;
  assign (set_mq8Offset (int_sub (analogRead e PIN_MQ8) cleanAirFloor)) ;;
  assign (set_mq9Offset (int_sub (analogRead e PIN_MQ9) cleanAirFloor)) ;;
  assign (set_dustOffset (int_sub (analogRead e PIN_DUST) cleanAirFloor)) ;;
  reading (fun d => assign (set_mq135Offset (max 0 (mq135Offset d)))) ;;
  reading (fun d => assign (set_mq8Offset (max 0 (mq8Offset d)))) ;;
  reading (fun d => assign (set_mq9Offset (max 0 (mq9Offset d)))) ;;
  reading (fun d => assign (set_dustOffset (max 0 (dustOffset d)))) ;;
  Serial_println "Calibration complete. New Offsets set." ;;
  assign (set_lastScreenChange (ulong_add (millis e) 2000)).

(** *** 7. Sensor reading and transmission *)
Definition readAndSendSensors (e : Env) : Action :=
  let rawMq135 := analogRead e PIN_MQ135 in
  let rawMq8 := analogRead e PIN_MQ8 in
  let rawMq9 := analogRead e PIN_MQ9 in
  let rawDust := analogRead e PIN_DUST in
  reading (fun d => assign (set_mq135Val (max 0 (int_sub rawMq135 (mq135Offset d))))) ;;
  reading (fun d => assign (set_mq8Val (max 0 (int_sub rawMq8 (mq8Offset d))))) ;;
  reading (fun d => assign (set_mq9Val (max 0 (int_sub rawMq9 (mq9Offset d))))) ;;
  reading (fun d => assign (set_dustVal (max 0 (int_sub rawDust (dustOffset d))))) ;;
  let t := dht_temperature e in
  let h := dht_humidity e in
  If (negb (isnan t)) (assign (set_temperature t)) skip ;;
  If (negb (isnan h)) (assign (set_humidity h)) skip ;;
  reading (fun d =>
    let doc := mkFrame (mq135Val d) (mq8Val d) (mq9Val d) (dustVal d)
                       (temperature d) (humidity d) (currentFanSpeed d) in
    If (ws_isConnected e)
      (emit (EsendTXT (Telemetry doc)) ;;
       emit (Eprintln [Str "Transmitted: "; Json doc]))
      (emit (Eprintln [Str "WS Disconnected. Local Data: "; Json doc]))).

(** *** 10. WebSocket event handler *)
Definition webSocketEvent (e : Env) (type : WStype_t) (payload : string)
  : Action :=
  match type with
  | WStype_DISCONNECTED =>
      Serial_println "[WebSocket] Disconnected from server."
  | WStype_CONNECTED =>
      Serial_printf ("[WebSocket] Connected to: %s" ++ LF)%string [Str payload] ;;
      emit (EsendTXT (Identification "device_connected" "esp32_edge_01"))
  | WStype_TEXT =>
      Serial_printf ("[WebSocket] Received Payload: %s" ++ LF)%string [Str payload] ;;
      match deserializeJson payload with
      | inr error =>
          Serial_print "deserializeJson() failed: " ;;
          Serial_println error
          (* return *)
      | inl doc =>
          If (containsKey doc "fan_speed")
            (assign (set_currentFanSpeed (as_int doc "fan_speed")) ;;
             reading (fun d =>
               assign (set_currentFanSpeed (constrain (currentFanSpeed d) 0 255))) ;;
             reading (fun d => analogWrite PIN_FAN_PWM (currentFanSpeed d)) ;;
             reading (fun d =>
               Serial_printf ("ML Command -> Fan updated to: %d" ++ LF)%string
                             [Int (currentFanSpeed d)]) ;;
             reading (fun d =>
               If (currentFanSpeed d >? 0)
                 (digitalWrite PIN_ML_LED HIGH)
                 (digitalWrite PIN_ML_LED LOW)))
            skip ;;
          If (containsKey doc "command" && eq_literal doc "command" "calibrate")
            (calibrateSensors e)
            skip
      end
  | WStype_BIN | WStype_PING | WStype_PONG | WStype_ERROR => skip
  end.

(** [webSocket.loop()]: the client hands each pending event to the
    registered handler, oldest first. *)
Fixpoint webSocket_loop (pending : list WsEvent) : Action :=
  match pending with
  | [] => skip
  | ev :: rest =>
      webSocketEvent (ev_env ev) (ev_type ev) (ev_payload ev) ;;
      webSocket_loop rest
  end.

(** *** 6. Main loop: the three tasks, then the loop itself *)

(** Task 1: read sensors and transmit every 5 seconds. *)
Definition task_sensors (e : Env) (currentMillis : Z) : Action :=
  reading (fun d =>
    If (ulong_sub currentMillis (lastSensorRead d) >=? sensorInterval)
      (assign (set_lastSensorRead currentMillis) ;;
       readAndSendSensors e)
      skip).

(** Task 2: rolling LCD page every 3 seconds. *)
Definition task_screen (e : Env) (currentMillis : Z) : Action :=
  reading (fun d =>
    If (ulong_sub currentMillis (lastScreenChange d) >=? screenInterval)
      (assign (set_lastScreenChange currentMillis) ;;
       reading (fun d =>
         assign (set_currentScreen (if currentScreen d =? 1 then 2 else 1))) ;;
       handleScreenUpdate e)
      skip).

(** Task 3: fail-safe check and WiFi auto-reconnect. *)
Definition task_failsafe (e : Env) (currentMillis : Z) : Action :=
  If (negb (is_WL_CONNECTED (wifi_status e)))
    (digitalWrite PIN_WIFI_LED LOW ;;
     controlFailSafe ;;
     reading (fun d =>
       If (ulong_sub currentMillis (lastWiFiRetry d) >=? wifiRetryInterval)
         (assign (set_lastWiFiRetry currentMillis) ;;
          Serial_println "[WiFi] Attempting reconnect..." ;;
          lcd_clear ;;
          lcd_setCursor 0 0 ;;
          lcd_print (Str "WiFi Reconnect..") ;;
          emit EWiFi_disconnect ;;
          delay 500 ;;
          emit EWiFi_begin)
         skip))
    (digitalWrite PIN_WIFI_LED HIGH).

Definition loop (i : LoopInput) : Action :=
  webSocket_loop (inbox i) ;;
  let currentMillis := millis (env i) in
  task_sensors (env i) currentMillis ;;
  task_screen (env i) currentMillis ;;
  task_failsafe (env i) currentMillis.

(** *** 5. Setup *)

(** The bounded wait for the first association: [status k] is what the
    k-th call of [WiFi.status()] returns, [remaining] the attempts left
    of the 60. Returns the number of status calls made so far. *)
Fixpoint wifi_wait (remaining : nat) (status : nat -> wl_status_t)
         (polls : nat) : Action * nat :=
  if is_WL_CONNECTED (status polls) then (skip, S polls)
  else match remaining with
       | O => (skip, S polls)
       | S r =>
           let (rest, n) := wifi_wait r status (S polls) in
           (delay 500 ;;
            Serial_print "." ;;
            reading (fun d => digitalWrite PIN_WIFI_LED (negb (out_WIFI_LED d))) ;;
            rest, n)
       end.

Definition maxAttempts : nat := 60.

Definition setup (status : nat -> wl_status_t) : Action :=
  call "WRITE_PERI_REG(RTC_CNTL_BROWN_OUT_REG, 0)" ;;
  call "Serial.begin(115200)" ;;
  delay 5000 ;;
  Serial_println (LF ++ LF ++ "=============================")%string ;;
  Serial_println "Antigravity AQI Node v1.0" ;;
  Serial_println "=============================" ;;
  call "pinMode(PIN_WIFI_LED, OUTPUT)" ;;
  call "pinMode(PIN_ML_LED, OUTPUT)" ;;
  call "pinMode(PIN_FAN_PWM, OUTPUT)" ;;
  analogWrite PIN_FAN_PWM 0 ;;
  digitalWrite PIN_ML_LED LOW ;;
  digitalWrite PIN_WIFI_LED LOW ;;
  Serial_println "[LCD] Initializing..." ;;
  call "Wire.begin()" ;; call "lcd.init()" ;; call "lcd.backlight()" ;;
  lcd_setCursor 0 0 ;;
  lcd_print (Str "AQI Node Boot...") ;;
  Serial_println "[LCD] OK" ;;
  Serial_println "[DHT11] Initializing..." ;;
  call "dht.begin()" ;;
  Serial_println "[DHT11] OK" ;;
  Serial_printf ("[WiFi] Connecting to: %s" ++ LF)%string [Str "ESP32Dev"] ;;
  lcd_setCursor 0 1 ;;
  lcd_print (Str "WiFi connecting..") ;;
  call "WiFi.persistent(false)" ;;
  emit EWiFi_disconnect ;;
  delay 1000 ;;
  call "WiFi.mode(WIFI_STA)" ;;
  call "WiFi.setAutoReconnect(true)" ;;
  call "WiFi.setTxPower(WIFI_POWER_8_5dBm)" ;;
  call "esp_wifi_set_ps(WIFI_PS_NONE)" ;;
  emit EWiFi_begin ;;
  let (waiting, polls) := wifi_wait maxAttempts status 0 in
  waiting ;;
  If (is_WL_CONNECTED (status polls))
    (Serial_printf (LF ++ "[WiFi] Connected! IP: %s" ++ LF)%string [LocalIP] ;;
     digitalWrite PIN_WIFI_LED HIGH ;;
     lcd_clear ;;
     lcd_setCursor 0 0 ;;
     lcd_print (Str "WiFi Connected") ;;
     lcd_setCursor 0 1 ;;
     lcd_print LocalIP)
    (Serial_println (LF ++ "[WiFi] FAILED! Running in offline/failsafe mode.")%string ;;
     digitalWrite PIN_WIFI_LED LOW ;;
     lcd_clear ;;
     lcd_setCursor 0 0 ;;
     lcd_print (Str "WiFi FAILED!") ;;
     lcd_setCursor 0 1 ;;
     lcd_print (Str "Offline Mode")) ;;
  Serial_printf ("[WS] Target: wss://%s:%d%s" ++ LF)%string
    [Str "antigravity-aqi-backend.onrender.com"; Int 443; Str "/ws/edge-node"] ;;
  call "webSocket.beginSSL(ws_host, ws_port, ws_path)" ;;
  call "webSocket.onEvent(webSocketEvent)" ;;
  call "webSocket.setReconnectInterval(5000)" ;;
  delay 1500 ;;
  lcd_clear ;;
  Serial_println "[BOOT] Setup complete. Entering main loop.".

(** The device after [setup()]. *)
Definition booted (status : nat -> wl_status_t) : Device :=
  run (setup status) power_on.

(** The part of one pass that runs before task 3. *)
Definition loop_prefix (i : LoopInput) : Action :=
  webSocket_loop (inbox i) ;;
  task_sensors (env i) (millis (env i)) ;;
  task_screen (env i) (millis (env i)).

(** The states the device can be in between two passes of the loop. *)
Inductive reachable : Device -> Prop :=
| reach_boot (status : nat -> wl_status_t) : reachable (booted status)
| reach_loop (i : LoopInput) (d : Device) :
    reachable d -> reachable (run (loop i) d).

(** A pass attempts a WiFi reconnect when it calls [WiFi.begin]. *)
Definition is_WiFi_begin (ev : event) : bool :=
  match ev with EWiFi_begin => true | _ => false end.

Definition attempts_reconnect (t : list event) : bool :=
  existsb is_WiFi_begin t.

(** The uptimes of the passes of a run that attempt a reconnect. *)
Fixpoint attempt_times (inputs : list LoopInput) (d : Device) : list Z :=
  match inputs with
  | [] => []
  | i :: rest =>
      (if attempts_reconnect (trace (loop i) d)
       then [uptime (env i)] else [])
      ++ attempt_times rest (run (loop i) d)
  end.

End Firmware.

(* ================================================================== *)
(** ** Vocabulary of the specification *)
(* ================================================================== *)

(** The four gas/dust channels, their pins and their slots in the state. *)
Inductive channel : Type := MQ135 | MQ8 | MQ9 | DUST.

Definition channel_pin (c : channel) : pin :=
  match c with
  | MQ135 => PIN_MQ135 | MQ8 => PIN_MQ8 | MQ9 => PIN_MQ9 | DUST => PIN_DUST
  end.

Definition raw (e : Env) (c : channel) : Z := analogRead e (channel_pin c).

Definition offset (d : Device) (c : channel) : Z :=
  match c with
  | MQ135 => mq135Offset d | MQ8 => mq8Offset d
  | MQ9 => mq9Offset d | DUST => dustOffset d
  end.

Definition calibrated (d : Device) (c : channel) : Z :=
  match c with
  | MQ135 => mq135Val d | MQ8 => mq8Val d
  | MQ9 => mq9Val d | DUST => dustVal d
  end.

(** A non-negative [int], as an ADC sample or a stored offset is. *)
Definition nonneg_int (z : Z) : Prop := 0 <= z <= INT_MAX.

(** The clean-air floor of the specification. *)
Definition CLEAN_AIR_FLOOR : Z := 200.

(** [clamp(v, lo, hi)] in the words of the specification. *)
Definition clamp (v lo hi : Z) : Z := Z.max lo (Z.min v hi).

(** Connectivity as the main loop observes it. *)
Definition Connected (e : Env) : Prop := wifi_status e = WL_CONNECTED.
Definition Disconnected (e : Env) : Prop := wifi_status e <> WL_CONNECTED.

(** The actuator duty domain, on the variable and on the PWM latch. *)
Definition duty_ok (d : Device) : Prop :=
  0 <= currentFanSpeed d <= 255 /\ out_FAN_PWM d = currentFanSpeed d.


(** Scheduler time never runs backwards from one pass to the next. *)
Definition monotone_clock (inputs : list LoopInput) : Prop :=
  Sorted.Sorted Z.le (List.map (fun i => uptime (env i)) inputs).

(** Successive entries at least [gap] apart. *)
Inductive spaced (gap : Z) : list Z -> Prop :=
| spaced_nil : spaced gap []
| spaced_one (a : Z) : spaced gap [a]
| spaced_cons (a b : Z) (l : list Z) :
    gap <= b - a -> spaced gap (b :: l) -> spaced gap (a :: b :: l).

(** Lines completed on the serial console by a trace: every [println]
    ends one, and every line feed written ends one, whether it stands in
    the text of a [print], in the format of a [printf] or in a string
    printed as an argument. Numbers, the IP address and a serialised
    frame contain no line feed. *)
Fixpoint count_LF (s : string) : nat :=
  match s with
  | EmptyString => O
  | String c rest =>
      ((if Ascii.eqb c (ascii_of_nat 10) then 1 else 0) + count_LF rest)%nat
  end.

Definition arg_LF (a : arg) : nat :=
  match a with
  | Str s => count_LF s
  | _ => O
  end.

Definition serial_lines_of (ev : event) : nat :=
  match ev with
  | Eprintln args => (1 + list_sum (List.map arg_LF args))%nat
  | Eprint a => arg_LF a
  | Eprintf fmt args => (count_LF fmt + list_sum (List.map arg_LF args))%nat
  | _ => O
  end.

Definition diagnostic_records (t : list event) : nat :=
  list_sum (List.map serial_lines_of t).



(** An action that leaves the duty variable and the PWM latch alone, and
    one that keeps them in their domain. *)
Definition keeps_duty (a : Action) : Prop :=
  forall d, currentFanSpeed (run a d) = currentFanSpeed d
            /\ out_FAN_PWM (run a d) = out_FAN_PWM d.

Definition preserves_duty (a : Action) : Prop :=
  forall d, duty_ok d -> duty_ok (run a d).

(** An action that neither touches [lastWiFiRetry] nor calls
    [WiFi.begin]. *)
Definition no_reconnect (a : Action) : Prop :=
  forall d, lastWiFiRetry (run a d) = lastWiFiRetry d
            /\ attempts_reconnect (trace a d) = false.

(* ================================================================== *)
(** ** Concrete inputs *)
(* ================================================================== *)

(** A table-driven stand-in for the JSON library, to run the handler on
    concrete payloads: the listed payloads decode to the listed documents,
    every other payload is a decoding error. *)
Module TableJson.

Record doc : Type := mkDoc {
  fan_speed : option Z;
  command : option string
}.

Definition dq : string := String (ascii_of_nat 34) EmptyString.

Definition quoted (s : string) : string := (dq ++ s ++ dq)%string.

(** [{"fan_speed": 400}] *)
Definition fan_400 : string :=
  ("{" ++ quoted "fan_speed" ++ ": 400}")%string.

(** [{"command": "calibrate"}] *)
Definition calibrate : string :=
  ("{" ++ quoted "command" ++ ": " ++ quoted "calibrate" ++ "}")%string.

(** [{"fan_speed": 128, "command": "calibrate"}] *)
Definition fan_128_calibrate : string :=
  ("{" ++ quoted "fan_speed" ++ ": 128, "
       ++ quoted "command" ++ ": " ++ quoted "calibrate" ++ "}")%string.


Definition table : list (string * doc) :=
  [ (fan_400, mkDoc (Some 400) None);
    (calibrate, mkDoc None (Some "calibrate"));
    (fan_128_calibrate, mkDoc (Some 128) (Some "calibrate")) ].

Fixpoint lookup (s : string) (t : list (string * doc)) : option doc :=
  match t with
  | [] => None
  | (k, v) :: rest => if String.eqb s k then Some v else lookup s rest
  end.

Definition decode (s : string) : doc + string :=
  match lookup s table with
  | Some v => inl v
  | None => inr "IncompleteInput"
  end.

Definition has (v : doc) (key : string) : bool :=
  if String.eqb key "fan_speed" then
    match fan_speed v with Some _ => true | None => false end
  else if String.eqb key "command" then
    match command v with Some _ => true | None => false end
  else false.

Definition int_at (v : doc) (key : string) : Z :=
  if String.eqb key "fan_speed" then
    match fan_speed v with Some n => n | None => 0 end
  else 0.

Definition is_literal (v : doc) (key lit : string) : bool :=
  if String.eqb key "command" then
    match command v with Some s => String.eqb s lit | None => false end
  else false.

#[export] Instance json : JsonLib doc :=
  {| deserializeJson := decode;
     containsKey := has;
     as_int := int_at;
     eq_literal := is_literal |}.

End TableJson.

(** The raw samples of the calibration scenario. *)
Definition scenario_adc (p : pin) : Z :=
  match p with
  | PIN_MQ135 => 250 | PIN_MQ8 => 210 | PIN_MQ9 => 300 | PIN_DUST => 190
  | _ => 0
  end.

(** An environment at uptime [t] with the given samples and WiFi status;
    the DHT11 answers 0.0 and the WebSocket follows the WiFi link. *)
Definition env_at (t : Z) (samples : pin -> Z) (w : wl_status_t) : Env :=
  mkEnv t samples (S754_zero false) (S754_zero false) w (is_WL_CONNECTED w).

(** A bench environment: uptime 10 s, the scenario samples, WiFi up. *)
Definition bench_env : Env := env_at 10000 scenario_adc WL_CONNECTED.

(** The firmware run with the table-driven JSON stand-in. *)
Definition bench_webSocketEvent : Env -> WStype_t -> string -> Action :=
  webSocketEvent (lib := TableJson.json).

Definition bench_loop : LoopInput -> Action := loop (lib := TableJson.json).

(** A device showing page 1 since uptime 9 s, and a pass at uptime 10 s
    in which the WebSocket client delivers one [calibrate] frame. *)
Definition hold_state : Device :=
  set_lastScreenChange 9000 (set_lastSensorRead 9000 power_on).

Definition hold_input : LoopInput :=
  mkLoopInput [mkWsEvent bench_env WStype_TEXT TableJson.calibrate] bench_env.

(** Two passes with the WiFi link down, at uptimes 20 s and 40 s. *)
Definition offline_run : list LoopInput :=
  [ mkLoopInput [] (env_at 20000 scenario_adc WL_DISCONNECTED);
    mkLoopInput [] (env_at 40000 scenario_adc WL_DISCONNECTED) ].

(* ================================================================== *)
(** ** Further vocabulary: traces, cadences, invariants *)
(* ================================================================== *)

(** The record [readAndSendSensors] leaves on the serial console for the
    frame it built, whether or not the frame was sent. *)
Definition is_telemetry_log (ev : event) : bool :=
  match ev with
  | Eprintln [Str _; Json _] => true
  | _ => false
  end.

Definition reads_sensors (t : list event) : bool := existsb is_telemetry_log t.

(** Blocking time spent in [delay] by a trace, in milliseconds. *)
Definition is_delay (ev : event) : bool :=
  match ev with Edelay _ => true | _ => false end.

Definition delay_of (ev : event) : Z :=
  match ev with Edelay ms => ms | _ => 0 end.

Fixpoint total_delay (t : list event) : Z :=
  match t with
  | [] => 0
  | ev :: rest => delay_of ev + total_delay rest
  end.

(** The actuator and indicator writes of a trace. *)
Definition is_output_write (ev : event) : bool :=
  match ev with
  | EanalogWrite _ _ | EdigitalWrite _ _ => true
  | _ => false
  end.

(** An action that leaves [field] alone and emits no event satisfying
    [p]. *)
Definition untouched {A : Type} (field : Device -> A) (p : event -> bool)
           (a : Action) : Prop :=
  forall d, field (run a d) = field d /\ existsb p (trace a d) = false.

(** An action that keeps a state predicate. *)
Definition preserves (P : Device -> Prop) (a : Action) : Prop :=
  forall d, P d -> P (run a d).

(** What holds of the state between two passes besides the duty domain:
    the alert LED is on exactly when the duty is positive, the page index
    is 1 or 2, offsets and calibrated readings are not negative. *)
Definition state_inv (d : Device) : Prop :=
  out_ML_LED d = (currentFanSpeed d >? 0)
  /\ (currentScreen d = 1 \/ currentScreen d = 2)
  /\ (forall c, 0 <= offset d c)
  /\ (forall c, 0 <= calibrated d c).

(** The fields [state_inv] speaks of. *)
Definition inv_fields (d : Device) :=
  (out_ML_LED d, currentFanSpeed d, currentScreen d,
   (mq135Offset d, mq8Offset d, mq9Offset d, dustOffset d),
   (mq135Val d, mq8Val d, mq9Val d, dustVal d)).

(** The fields a pass can only change through a command or the fail-safe:
    duty, PWM latch, alert LED and the four offsets. *)
Definition command_fields (d : Device) :=
  (currentFanSpeed d, out_FAN_PWM d, out_ML_LED d,
   (mq135Offset d, mq8Offset d, mq9Offset d, dustOffset d)).

(** The two variables of the page roll. *)
Definition screen_fields (d : Device) := (lastScreenChange d, currentScreen d).

(** The uptimes of the passes of a run at which [fires] holds, for a run
    that advances by [step]. *)
Fixpoint fire_times (fires : LoopInput -> Device -> bool)
         (step : LoopInput -> Device -> Device)
         (inputs : list LoopInput) (d : Device) : list Z :=
  match inputs with
  | [] => []
  | i :: rest =>
      (if fires i d then [uptime (env i)] else [])
      ++ fire_times fires step rest (step i d)
  end.

(** A pass whose WebSocket pump delivers no text frame. *)
Definition no_text_frames (i : LoopInput) : Prop :=
  Forall (fun ev => ev_type ev <> WStype_TEXT) (inbox i).

(** The telemetry frame of a state. *)
Definition frame_of (d : Device) : TelemetryFrame :=
  mkFrame (mq135Val d) (mq8Val d) (mq9Val d) (dustVal d)
          (temperature d) (humidity d) (currentFanSpeed d).

Section Runs.

Context {JsonDocument : Type} {lib : JsonLib JsonDocument}.

(** The uptimes of the passes that run a sensor-read cycle. *)
Definition read_times : list LoopInput -> Device -> list Z :=
  fire_times (fun i d => reads_sensors (trace (loop i) d))
             (fun i d => run (loop i) d).

(** The uptimes of the passes that change the LCD page. *)
Definition toggle_times : list LoopInput -> Device -> list Z :=
  fire_times (fun i d => negb (currentScreen (run (loop i) d) =? currentScreen d))
             (fun i d => run (loop i) d).

End Runs.

(** A JSON stand-in that decodes every payload to the document [v]. *)
Definition const_json (v : TableJson.doc) : JsonLib TableJson.doc :=
  {| deserializeJson := fun _ => inl v;
     containsKey := TableJson.has;
     as_int := TableJson.int_at;
     eq_literal := TableJson.is_literal |}.

(** The document of [{"command": "manual_fan", "speed": 128}], the frame
    the dashboard's manual fan control sends: no [fan_speed] key, and a
    command that is not [calibrate]. *)
Definition manual_fan_doc : TableJson.doc :=
  TableJson.mkDoc None (Some "manual_fan").

(** Three passes with the link up and an idle WebSocket, at uptimes 5 s,
    7 s and 10 s. *)
Definition online_run : list LoopInput :=
  [ mkLoopInput [] (env_at 5000 scenario_adc WL_CONNECTED);
    mkLoopInput [] (env_at 7000 scenario_adc WL_CONNECTED);
    mkLoopInput [] (env_at 10000 scenario_adc WL_CONNECTED) ].

(* ================================================================== *)
(** ** Arithmetic facts *)
(* ================================================================== *)

Lemma wrap_int_id z : int_range z -> wrap_int z = z.
Proof.
  unfold int_range, INT_MIN, INT_MAX, wrap_int. intros Hz.
  rewrite Z.mod_small by lia. lia.
Qed.

Lemma max_Zmax a b : max a b = Z.max a b.
Proof. unfold max. destruct (Z.gtb_spec a b); lia. Qed.

Lemma int_sub_nonneg a b :
  nonneg_int a -> nonneg_int b -> int_sub a b = a - b.
Proof.
  unfold nonneg_int, INT_MAX, int_sub. intros Ha Hb.
  apply wrap_int_id. unfold int_range, INT_MIN, INT_MAX. lia.
Qed.

Lemma constrain_clamp v : constrain v 0 255 = clamp v 0 255.
Proof.
  unfold constrain, clamp.
  destruct (Z.ltb_spec v 0); [lia|].
  destruct (Z.gtb_spec v 255); lia.
Qed.

Lemma clamp_range v : 0 <= clamp v 0 255 <= 255.
Proof. unfold clamp. lia. Qed.

Lemma ulong_sub_elapsed t0 t1 :
  t0 <= t1 -> ulong_sub (wrap_ulong t1) (wrap_ulong t0) <= t1 - t0.
Proof.
  intros Hle. unfold ulong_sub, wrap_ulong, ULONG_MOD.
  rewrite <- Zminus_mod.
  apply Z.mod_le; lia.
Qed.

(* ================================================================== *)
(** ** Sensor acquisition and calibration *)
(* ================================================================== *)

(** Unfold the action combinators and compute. *)
Ltac step :=
  unfold run, trace, seq, reading, assign, emit, skip, If,
         Serial_println, Serial_print, Serial_printf,
         lcd_clear, lcd_setCursor, lcd_print, delay, call; cbn.

(** A property of [run a d] and [trace a d] that holds by computing the
    action on an arbitrary state, whichever way its tests go. *)
Ltac by_computation :=
  let d := fresh "d" in
  intros d; step;
  repeat match goal with
         | |- context [if ?c then _ else _] => destruct c; cbn
         end;
  split; reflexivity.

Lemma readAndSendSensors_calibrated e d c :
  calibrated (run (readAndSendSensors e) d) c
  = max 0 (int_sub (raw e c) (offset d c)).
Proof.
  unfold readAndSendSensors, raw. step.
  destruct (isnan (dht_temperature e)), (isnan (dht_humidity e)),
           (ws_isConnected e), c; reflexivity.
Qed.

Lemma readAndSendSensors_dht e d :
  temperature (run (readAndSendSensors e) d)
  = (if isnan (dht_temperature e) then temperature d else dht_temperature e)
  /\ humidity (run (readAndSendSensors e) d)
  = (if isnan (dht_humidity e) then humidity d else dht_humidity e).
Proof.
  unfold readAndSendSensors. step.
  destruct (isnan (dht_temperature e)), (isnan (dht_humidity e)),
           (ws_isConnected e); split; reflexivity.
Qed.

Lemma calibrateSensors_offset e d c :
  offset (run (calibrateSensors e) d) c
  = max 0 (int_sub (raw e c) CLEAN_AIR_FLOOR).
Proof. unfold calibrateSensors, raw. step. destruct c; reflexivity. Qed.

Lemma calibrateSensors_state e d :
  run (calibrateSensors e) d
  = set_lastScreenChange (ulong_add (millis e) 2000)
      (set_dustOffset (max 0 (int_sub (raw e DUST) CLEAN_AIR_FLOOR))
        (set_mq9Offset (max 0 (int_sub (raw e MQ9) CLEAN_AIR_FLOOR))
          (set_mq8Offset (max 0 (int_sub (raw e MQ8) CLEAN_AIR_FLOOR))
            (set_mq135Offset (max 0 (int_sub (raw e MQ135) CLEAN_AIR_FLOOR)) d)))).
Proof. reflexivity. Qed.

(** C3. In every sensor-read cycle each gas/dust channel whose raw sample
    and stored offset are non-negative ints gets the calibrated value
    max(0, raw - offset), which is non-negative; temperature and humidity
    are stored as the DHT11 returned them (or kept when it returned NaN),
    with no offset applied. *)
Theorem C3_calibrated_is_floored_difference (e : Env) (d : Device) (c : channel) :
  nonneg_int (raw e c) ->
  nonneg_int (offset d c) ->
  let d' := run (readAndSendSensors e) d in
  calibrated d' c = Z.max 0 (raw e c - offset d c)
  /\ 0 <= calibrated d' c
  /\ temperature d'
     = (if isnan (dht_temperature e) then temperature d else dht_temperature e)
  /\ humidity d'
     = (if isnan (dht_humidity e) then humidity d else dht_humidity e).
Proof.
  intros Hraw Hoff d'. subst d'.
  rewrite readAndSendSensors_calibrated, max_Zmax, int_sub_nonneg by assumption.
  destruct (readAndSendSensors_dht e d) as [Ht Hh].
  repeat split; try assumption. lia.
Qed.

(** C4. After [calibrateSensors] every channel offset is
    max(0, raw - 200) for the sample read during the calibration, all four
    offsets are non-negative, and the samples 250, 210, 300, 190 give the
    offsets 50, 10, 100, 0. *)
Theorem C4_offsets_after_recalibration (e : Env) (d : Device) (c : channel) :
  nonneg_int (raw e c) ->
  let d' := run (calibrateSensors e) d in
  offset d' c = Z.max 0 (raw e c - CLEAN_AIR_FLOOR)
  /\ (forall c', 0 <= offset d' c')
  /\ (raw e MQ135 = 250 -> raw e MQ8 = 210 -> raw e MQ9 = 300 ->
      raw e DUST = 190 ->
      offset d' MQ135 = 50 /\ offset d' MQ8 = 10
      /\ offset d' MQ9 = 100 /\ offset d' DUST = 0).
Proof.
  intros Hraw d'. subst d'. split; [|split].
  - rewrite calibrateSensors_offset, max_Zmax. f_equal.
    unfold int_sub. apply wrap_int_id.
    unfold nonneg_int, INT_MAX in Hraw.
    unfold int_range, INT_MIN, INT_MAX, CLEAN_AIR_FLOOR. lia.
  - intros c'. rewrite calibrateSensors_offset, max_Zmax. lia.
  - intros H1 H2 H3 H4.
    rewrite !calibrateSensors_offset, H1, H2, H3, H4.
    repeat split; reflexivity.
Qed.

(** C9. A sensor-read cycle in which the DHT11 returns NaN for the
    temperature (for the humidity) keeps the stored temperature (humidity);
    a reading that is not NaN replaces it. The two are handled
    independently. *)
Theorem C9_nan_reading_keeps_previous_value (e : Env) (d : Device) :
  let d' := run (readAndSendSensors e) d in
  temperature d'
  = (if isnan (dht_temperature e) then temperature d else dht_temperature e)
  /\ humidity d'
  = (if isnan (dht_humidity e) then humidity d else dht_humidity e).
Proof.
  cbv zeta. unfold readAndSendSensors. step.
  destruct (isnan (dht_temperature e)); destruct (isnan (dht_humidity e));
    destruct (ws_isConnected e); cbn; split; reflexivity.
Qed.

(** C10. [calibrateSensors] writes the four offsets and [lastScreenChange]
    and nothing else: putting its five results into the old state gives the
    new state, so the calibrated readings, temperature, humidity, duty,
    output latches, page index and the other two timestamps are as before;
    the sensor-read cycle that follows subtracts the new offsets. *)
Theorem C10_recalibration_frame (e : Env) (d : Device) :
  let d' := run (calibrateSensors e) d in
  d' = set_lastScreenChange (lastScreenChange d')
         (set_dustOffset (dustOffset d')
           (set_mq9Offset (mq9Offset d')
             (set_mq8Offset (mq8Offset d')
               (set_mq135Offset (mq135Offset d') d))))
  /\ (forall c, calibrated d' c = calibrated d c)
  /\ temperature d' = temperature d
  /\ humidity d' = humidity d
  /\ currentFanSpeed d' = currentFanSpeed d
  /\ out_FAN_PWM d' = out_FAN_PWM d
  /\ out_ML_LED d' = out_ML_LED d
  /\ out_WIFI_LED d' = out_WIFI_LED d
  /\ currentScreen d' = currentScreen d
  /\ lastSensorRead d' = lastSensorRead d
  /\ lastWiFiRetry d' = lastWiFiRetry d
  /\ (forall e2 c,
        calibrated (run (readAndSendSensors e2) d') c
        = max 0 (int_sub (raw e2 c) (offset d' c))).
Proof.
  cbv zeta. rewrite calibrateSensors_state.
  split; [reflexivity|].
  split; [intros c; destruct c; reflexivity|].
  do 9 (split; [reflexivity|]).
  intros e2 c. apply readAndSendSensors_calibrated.
Qed.

(* ================================================================== *)
(** ** Sequencing *)
(* ================================================================== *)

Lemma run_seq (a b : Action) (d : Device) :
  run (a ;; b) d = run b (run a d).
Proof.
  unfold run, seq. destruct (a d) as [d1 t1]. cbn.
  destruct (b d1) as [d2 t2]. reflexivity.
Qed.

Lemma trace_seq (a b : Action) (d : Device) :
  trace (a ;; b) d = trace a d ++ trace b (run a d).
Proof.
  unfold run, trace, seq. destruct (a d) as [d1 t1]. cbn.
  destruct (b d1) as [d2 t2]. reflexivity.
Qed.

Section Properties.

Context {JsonDocument : Type} {lib : JsonLib JsonDocument}.

Lemma loop_run (i : LoopInput) (d : Device) :
  run (loop i) d
  = run (task_failsafe (env i) (millis (env i))) (run (loop_prefix i) d).
Proof. unfold loop, loop_prefix. cbv zeta. now rewrite !run_seq. Qed.

Lemma loop_trace (i : LoopInput) (d : Device) :
  trace (loop i) d
  = trace (loop_prefix i) d
    ++ trace (task_failsafe (env i) (millis (env i))) (run (loop_prefix i) d).
Proof.
  unfold loop, loop_prefix. cbv zeta.
  rewrite !trace_seq, !run_seq, !app_assoc. reflexivity.
Qed.

(* ---------------------------------------------------------------- *)
(** *** Fail-safe controller *)

(** C1. In every pass of the main loop, task 3 writes duty 255 exactly
    when the link is down and the stored MQ9 value exceeds 3000, and then
    the duty variable and PWM latch are 255 and the alert LED is high; it
    writes duty 0 exactly when the link is down and the MQ9 value is at
    most 3000, and then duty and latch are 0 and the LED is low; while the
    link is up it leaves duty, latch and LED as they were and writes no
    duty at all. *)
Theorem C1_failsafe_gated_on_connectivity (i : LoopInput) (d : Device) :
  let d1 := run (loop_prefix i) d in
  let t3 := trace (task_failsafe (env i) (millis (env i))) d1 in
  let d' := run (loop i) d in
  trace (loop i) d = trace (loop_prefix i) d ++ t3
  /\ (In (EanalogWrite PIN_FAN_PWM 255) t3
      <-> Disconnected (env i) /\ mq9Val d1 > MQ9_FAILSAFE_THRESHOLD)
  /\ (Disconnected (env i) /\ mq9Val d1 > MQ9_FAILSAFE_THRESHOLD ->
      currentFanSpeed d' = 255 /\ out_FAN_PWM d' = 255
      /\ out_ML_LED d' = HIGH /\ In (EdigitalWrite PIN_ML_LED HIGH) t3)
  /\ (In (EanalogWrite PIN_FAN_PWM 0) t3
      <-> Disconnected (env i) /\ mq9Val d1 <= MQ9_FAILSAFE_THRESHOLD)
  /\ (Disconnected (env i) /\ mq9Val d1 <= MQ9_FAILSAFE_THRESHOLD ->
      currentFanSpeed d' = 0 /\ out_FAN_PWM d' = 0
      /\ out_ML_LED d' = LOW /\ In (EdigitalWrite PIN_ML_LED LOW) t3)
  /\ (Connected (env i) ->
      currentFanSpeed d' = currentFanSpeed d1
      /\ out_FAN_PWM d' = out_FAN_PWM d1
      /\ out_ML_LED d' = out_ML_LED d1
      /\ forall v, ~ In (EanalogWrite PIN_FAN_PWM v) t3).
Proof.
  intros d1 t3 d'.
  split; [apply loop_trace|].
  subst d' t3. rewrite loop_run. fold d1.
  generalize (millis (env i)) as now. generalize d1 as s. clear d1.
  intros s now.
  unfold Disconnected, Connected, MQ9_FAILSAFE_THRESHOLD.
  unfold task_failsafe, controlFailSafe, MQ9_FAILSAFE_THRESHOLD.
  destruct (wifi_status (env i)) eqn:Hw; step;
    destruct (Z.gtb_spec (mq9Val s) 3000); cbn;
    try destruct (ulong_sub now (lastWiFiRetry s) >=? wifiRetryInterval);
    cbn; unfold HIGH, LOW;
    repeat split; intros;
    repeat match goal with
           | H : _ /\ _ |- _ => destruct H
           | H : _ \/ _ |- _ => destruct H
           | H : False |- _ => destruct H
           end;
    try congruence; try lia; try discriminate; auto 10;
    try (intros [Hev | []]; discriminate Hev).
Qed.

(* ---------------------------------------------------------------- *)
(** *** Inbound command frames *)

(** C2. A text frame that decodes to a document with a [fan_speed] key
    of int value [v] sets the duty (variable and PWM latch) to
    clamp(v, 0, 255) and leaves the alert LED high exactly when that duty
    is not zero; when the document also carries the command [calibrate],
    the duty and LED are set in the same way and the offsets are
    recalibrated as well. *)
Theorem C2_fan_speed_is_clamped (e : Env) (payload : string)
        (doc : JsonDocument) (v : Z) (d : Device) :
  deserializeJson payload = inl doc ->
  containsKey doc "fan_speed" = true ->
  as_int doc "fan_speed" = v ->
  let d' := run (webSocketEvent e WStype_TEXT payload) d in
  let t := trace (webSocketEvent e WStype_TEXT payload) d in
  currentFanSpeed d' = clamp v 0 255
  /\ out_FAN_PWM d' = clamp v 0 255
  /\ In (EanalogWrite PIN_FAN_PWM (clamp v 0 255)) t
  /\ (out_ML_LED d' = HIGH <-> currentFanSpeed d' <> 0)
  /\ (containsKey doc "command" = true ->
      eq_literal doc "command" "calibrate" = true ->
      (forall c, offset d' c = max 0 (int_sub (raw e c) CLEAN_AIR_FLOOR))
      /\ lastScreenChange d' = ulong_add (millis e) 2000).
Proof.
  intros Hdec Hkey Hval d' t. subst d' t.
  unfold webSocketEvent. rewrite Hdec, Hkey, Hval.
  pose proof (clamp_range v) as Hr.
  destruct (containsKey doc "command" && eq_literal doc "command" "calibrate")
    eqn:Hcal;
    unfold calibrateSensors; step; rewrite !constrain_clamp;
    destruct (Z.gtb_spec (clamp v 0 255) 0); cbn; unfold HIGH, LOW;
    (repeat split; intros;
     try lia; try congruence; try discriminate; auto);
    try (destruct c; reflexivity);
    try (destruct c; reflexivity);
    try match goal with
        | Hk : containsKey doc "command" = true,
          Hl : eq_literal doc "command" "calibrate" = true |- _ =>
            exfalso; rewrite Hk, Hl in Hcal; discriminate Hcal
        end.
Qed.


(* ---------------------------------------------------------------- *)
(** *** The duty domain *)

Lemma keeps_seq (a b : Action) :
  keeps_duty a -> keeps_duty b -> keeps_duty (a ;; b).
Proof.
  intros Ha Hb d. rewrite run_seq.
  destruct (Hb (run a d)) as [-> ->]. apply Ha.
Qed.

Lemma keeps_preserves (a : Action) : keeps_duty a -> preserves_duty a.
Proof.
  intros Ha d [Hr He]. destruct (Ha d) as [Hc Ho].
  unfold duty_ok. rewrite Hc, Ho. auto.
Qed.

Lemma preserves_seq (a b : Action) :
  preserves_duty a -> preserves_duty b -> preserves_duty (a ;; b).
Proof. intros Ha Hb d Hd. rewrite run_seq. auto. Qed.

Lemma keeps_readAndSendSensors e : keeps_duty (readAndSendSensors e).
Proof. unfold readAndSendSensors. by_computation. Qed.

Lemma keeps_calibrateSensors e : keeps_duty (calibrateSensors e).
Proof. unfold calibrateSensors. by_computation. Qed.

Lemma keeps_handleScreenUpdate e : keeps_duty (handleScreenUpdate e).
Proof. unfold handleScreenUpdate. by_computation. Qed.

Lemma keeps_reading (k : Device -> Action) :
  (forall d0, keeps_duty (k d0)) -> keeps_duty (reading k).
Proof. intros Hk d. exact (Hk d d). Qed.

Lemma keeps_If (c : bool) (a b : Action) :
  keeps_duty a -> keeps_duty b -> keeps_duty (If c a b).
Proof. destruct c; auto. Qed.

Lemma preserves_If (c : bool) (a b : Action) :
  preserves_duty a -> preserves_duty b -> preserves_duty (If c a b).
Proof. destruct c; auto. Qed.

Lemma keeps_skip : keeps_duty skip.
Proof. by_computation. Qed.

Lemma keeps_task_sensors e now : keeps_duty (task_sensors e now).
Proof.
  apply keeps_reading; intros d0. apply keeps_If; [|apply keeps_skip].
  apply keeps_seq; [by_computation | apply keeps_readAndSendSensors].
Qed.

Lemma keeps_task_screen e now : keeps_duty (task_screen e now).
Proof.
  apply keeps_reading; intros d0. apply keeps_If; [|apply keeps_skip].
  apply keeps_seq; [by_computation|].
  apply keeps_seq; [by_computation | apply keeps_handleScreenUpdate].
Qed.

Lemma preserves_controlFailSafe : preserves_duty controlFailSafe.
Proof.
  intros d _. unfold controlFailSafe, duty_ok. step.
  destruct (mq9Val d >? MQ9_FAILSAFE_THRESHOLD); cbn; lia.
Qed.

Lemma preserves_task_failsafe e now : preserves_duty (task_failsafe e now).
Proof.
  unfold task_failsafe. apply preserves_If.
  - apply preserves_seq; [apply keeps_preserves; by_computation|].
    apply preserves_seq; [apply preserves_controlFailSafe|].
    apply keeps_preserves, keeps_reading; intros d0.
    apply keeps_If; [by_computation | apply keeps_skip].
  - apply keeps_preserves. by_computation.
Qed.

Lemma preserves_webSocketEvent e type payload :
  preserves_duty (webSocketEvent e type payload).
Proof.
  unfold webSocketEvent.
  destruct type; try (apply keeps_preserves; by_computation).
  apply preserves_seq; [apply keeps_preserves; by_computation|].
  destruct (deserializeJson payload) as [doc | err];
    [|apply keeps_preserves; by_computation].
  apply preserves_seq; apply preserves_If;
    try (apply keeps_preserves, keeps_skip);
    try (apply keeps_preserves, keeps_calibrateSensors).
  intros d _. unfold duty_ok. step. rewrite constrain_clamp.
  pose proof (clamp_range (as_int doc "fan_speed")).
  destruct (clamp _ 0 255 >? 0); cbn; auto.
Qed.

Lemma preserves_webSocket_loop pending :
  preserves_duty (webSocket_loop pending).
Proof.
  induction pending as [|ev rest IH]; cbn [webSocket_loop].
  - intros d Hd. exact Hd.
  - apply preserves_seq; [apply preserves_webSocketEvent | exact IH].
Qed.

Lemma preserves_loop i : preserves_duty (loop i).
Proof.
  unfold loop. cbv zeta.
  apply preserves_seq; [apply preserves_webSocket_loop|].
  apply preserves_seq; [apply keeps_preserves, keeps_task_sensors|].
  apply preserves_seq; [apply keeps_preserves, keeps_task_screen|].
  apply preserves_task_failsafe.
Qed.

Lemma keeps_wifi_wait remaining status :
  forall polls w n,
    wifi_wait remaining status polls = (w, n) -> keeps_duty w.
Proof.
  induction remaining as [|r IH]; intros polls w n Hw; cbn in Hw;
    destruct (is_WL_CONNECTED (status polls));
    try (injection Hw as <- _; by_computation).
  destruct (wifi_wait r status (S polls)) as [rest m] eqn:Hrest.
  injection Hw as <- _.
  apply keeps_seq; [by_computation|].
  apply keeps_seq; [by_computation|].
  apply keeps_seq; [by_computation|].
  eapply IH; eassumption.
Qed.

Lemma booted_duty status : duty_ok (booted status).
Proof.
  unfold booted, setup.
  destruct (wifi_wait maxAttempts status 0) as [w n] eqn:Hw.
  pose proof (keeps_wifi_wait _ _ _ _ _ Hw) as Hk.
  unfold duty_ok. step.
  match goal with
  | |- context [w ?s] =>
      specialize (Hk s); unfold run in Hk; destruct (w s) as [d1 t1]
  end.
  cbn in Hk. destruct Hk as [Hc Ho].
  destruct (is_WL_CONNECTED (status n)); cbn; rewrite Hc, Ho; cbn; lia.
Qed.

(** C7. The actuator duty is an integer of [0, 255], and the PWM latch
    holds the same value, in every state the device reaches: after
    [setup()] and after each pass of the main loop; from such a state the
    fail-safe evaluation and the handling of any WebSocket event, a
    fan-speed command included, lead again to such a state. *)
Theorem C7_duty_domain_invariant (d : Device) :
  reachable d ->
  duty_ok d
  /\ duty_ok (run controlFailSafe d)
  /\ (forall e type payload, duty_ok (run (webSocketEvent e type payload) d))
  /\ (forall i, duty_ok (run (loop i) d)).
Proof.
  intros Hreach.
  assert (Hd : duty_ok d).
  { induction Hreach as [status | i d Hr IH].
    - apply booted_duty.
    - apply preserves_loop, IH. }
  split; [exact Hd|].
  split; [apply preserves_controlFailSafe, Hd|].
  split; [intros; apply preserves_webSocketEvent, Hd|].
  intros; apply preserves_loop, Hd.
Qed.

(* ---------------------------------------------------------------- *)
(** *** Reconnect cadence *)

Lemma no_reconnect_seq (a b : Action) :
  no_reconnect a -> no_reconnect b -> no_reconnect (a ;; b).
Proof.
  intros Ha Hb d. rewrite run_seq, trace_seq.
  unfold attempts_reconnect. rewrite existsb_app.
  destruct (Ha d) as [Ha1 Ha2]. destruct (Hb (run a d)) as [Hb1 Hb2].
  unfold attempts_reconnect in Ha2, Hb2.
  rewrite Hb1, Ha1, Ha2, Hb2. split; reflexivity.
Qed.

Lemma no_reconnect_reading (k : Device -> Action) :
  (forall d0, no_reconnect (k d0)) -> no_reconnect (reading k).
Proof. intros Hk d. exact (Hk d d). Qed.

Lemma no_reconnect_If (c : bool) (a b : Action) :
  no_reconnect a -> no_reconnect b -> no_reconnect (If c a b).
Proof. destruct c; auto. Qed.

Lemma no_reconnect_skip : no_reconnect skip.
Proof. by_computation. Qed.

Lemma no_reconnect_readAndSendSensors e : no_reconnect (readAndSendSensors e).
Proof. unfold readAndSendSensors. by_computation. Qed.

Lemma no_reconnect_calibrateSensors e : no_reconnect (calibrateSensors e).
Proof. unfold calibrateSensors. by_computation. Qed.

Lemma no_reconnect_handleScreenUpdate e : no_reconnect (handleScreenUpdate e).
Proof. unfold handleScreenUpdate. by_computation. Qed.

Lemma no_reconnect_webSocketEvent e type payload :
  no_reconnect (webSocketEvent e type payload).
Proof.
  unfold webSocketEvent.
  destruct type; try by_computation.
  apply no_reconnect_seq; [by_computation|].
  destruct (deserializeJson payload) as [doc | err]; [|by_computation].
  apply no_reconnect_seq; apply no_reconnect_If;
    try apply no_reconnect_skip;
    try apply no_reconnect_calibrateSensors.
  by_computation.
Qed.

Lemma no_reconnect_webSocket_loop pending :
  no_reconnect (webSocket_loop pending).
Proof.
  induction pending as [|ev rest IH]; cbn [webSocket_loop].
  - apply no_reconnect_skip.
  - apply no_reconnect_seq; [apply no_reconnect_webSocketEvent | exact IH].
Qed.

Lemma no_reconnect_loop_prefix i : no_reconnect (loop_prefix i).
Proof.
  unfold loop_prefix, task_sensors, task_screen.
  apply no_reconnect_seq; [apply no_reconnect_webSocket_loop|].
  apply no_reconnect_seq.
  - apply no_reconnect_reading; intros d0.
    apply no_reconnect_If; [|apply no_reconnect_skip].
    apply no_reconnect_seq;
      [by_computation | apply no_reconnect_readAndSendSensors].
  - apply no_reconnect_reading; intros d0.
    apply no_reconnect_If; [|apply no_reconnect_skip].
    apply no_reconnect_seq; [by_computation|].
    apply no_reconnect_seq;
      [by_computation | apply no_reconnect_handleScreenUpdate].
Qed.

(** Whether task 3 attempts a reconnect, as the source decides it. *)
Lemma task_failsafe_attempt (e : Env) (now : Z) (d : Device) :
  let due := negb (is_WL_CONNECTED (wifi_status e))
             && (ulong_sub now (lastWiFiRetry d) >=? wifiRetryInterval) in
  attempts_reconnect (trace (task_failsafe e now) d) = due
  /\ lastWiFiRetry (run (task_failsafe e now) d)
     = if due then now else lastWiFiRetry d.
Proof.
  cbv zeta. unfold task_failsafe, controlFailSafe.
  destruct (is_WL_CONNECTED (wifi_status e)); step;
    [split; reflexivity|].
  destruct (mq9Val d >? MQ9_FAILSAFE_THRESHOLD); cbn;
    destruct (ulong_sub now (lastWiFiRetry d) >=? wifiRetryInterval);
    cbn; split; reflexivity.
Qed.

Lemma loop_attempt (i : LoopInput) (d : Device) :
  let due := negb (is_WL_CONNECTED (wifi_status (env i)))
             && (ulong_sub (millis (env i)) (lastWiFiRetry d)
                 >=? wifiRetryInterval) in
  attempts_reconnect (trace (loop i) d) = due
  /\ lastWiFiRetry (run (loop i) d)
     = if due then millis (env i) else lastWiFiRetry d.
Proof.
  cbv zeta. rewrite loop_trace, loop_run.
  destruct (no_reconnect_loop_prefix i d) as [Hl Hq].
  destruct (task_failsafe_attempt (env i) (millis (env i))
                                  (run (loop_prefix i) d)) as [Ha Hr].
  cbv zeta in Ha, Hr. rewrite Hl in Ha, Hr.
  unfold attempts_reconnect in *. rewrite existsb_app, Hq, Ha, Hr.
  split; reflexivity.
Qed.

Lemma spaced_after (gap a : Z) (l : list Z) :
  Forall (fun t => gap <= t - a) l -> spaced gap l -> spaced gap (a :: l).
Proof.
  intros Hall Hsp. destruct l as [|b l].
  - constructor.
  - constructor; [|exact Hsp]. now inversion Hall.
Qed.

(** After an attempt at uptime [T0], every attempt of a later run is at
    least the retry interval after [T0], and they are spaced. *)
Lemma attempts_after (inputs : list LoopInput) :
  forall (d : Device) (T0 : Z),
    lastWiFiRetry d = wrap_ulong T0 ->
    Forall (fun i => T0 <= uptime (env i)) inputs ->
    StronglySorted Z.le (List.map (fun i => uptime (env i)) inputs) ->
    Forall (fun t => wifiRetryInterval <= t - T0) (attempt_times inputs d)
    /\ spaced wifiRetryInterval (attempt_times inputs d).
Proof.
  induction inputs as [|i rest IH]; intros d T0 Hlast Hge Hsorted.
  - cbn. split; constructor.
  - cbn [attempt_times].
    inversion Hge as [|? ? Hi Hrest]; subst.
    cbn [List.map] in Hsorted.
    inversion Hsorted as [|? ? Hsrest Hhead]; subst.
    rewrite Forall_map in Hhead.
    destruct (loop_attempt i d) as [Hatt Hretry]. cbv zeta in Hatt, Hretry.
    rewrite Hatt.
    destruct (negb (is_WL_CONNECTED (wifi_status (env i)))
              && (ulong_sub (millis (env i)) (lastWiFiRetry d)
                  >=? wifiRetryInterval)) eqn:Hdue.
    + apply andb_prop in Hdue. destruct Hdue as [_ Hdue].
      apply Z.geb_le in Hdue. rewrite Hlast in Hdue.
      pose proof (ulong_sub_elapsed T0 (uptime (env i)) Hi) as Hel.
      fold (millis (env i)) in Hel.
      destruct (IH (run (loop i) d) (uptime (env i)) Hretry Hhead Hsrest)
        as [Hall Hsp].
      cbn [app]. split.
      * constructor; [lia|].
        eapply Forall_impl; [|exact Hall]. cbn. intros t Ht. lia.
      * apply spaced_after; assumption.
    + destruct (IH (run (loop i) d) T0) as [Hall Hsp]; try assumption.
      * rewrite Hretry. exact Hlast.
      * cbn [app]. split; assumption.
Qed.

Lemma attempts_spaced (inputs : list LoopInput) :
  forall d : Device,
    StronglySorted Z.le (List.map (fun i => uptime (env i)) inputs) ->
    spaced wifiRetryInterval (attempt_times inputs d).
Proof.
  induction inputs as [|i rest IH]; intros d Hsorted.
  - constructor.
  - cbn [attempt_times]. cbn [List.map] in Hsorted.
    inversion Hsorted as [|? ? Hsrest Hhead]; subst.
    rewrite Forall_map in Hhead.
    destruct (loop_attempt i d) as [Hatt Hretry]. cbv zeta in Hatt, Hretry.
    rewrite Hatt.
    destruct (negb (is_WL_CONNECTED (wifi_status (env i)))
              && (ulong_sub (millis (env i)) (lastWiFiRetry d)
                  >=? wifiRetryInterval)) eqn:Hdue.
    + destruct (attempts_after rest (run (loop i) d) (uptime (env i))
                               Hretry Hhead Hsrest) as [Hall Hsp].
      cbn [app]. apply spaced_after; assumption.
    + cbn [app]. apply IH, Hsrest.
Qed.

(** C8. Over any run of the main loop whose clock does not run backwards,
    the passes that attempt a WiFi reconnect are at least 15000 ms of
    uptime apart from one to the next; a pass that finds the link up
    attempts none. *)
Theorem C8_reconnect_attempts_spaced (inputs : list LoopInput) (d : Device) :
  monotone_clock inputs ->
  spaced 15000 (attempt_times inputs d)
  /\ (forall i d0,
        Connected (env i) -> attempts_reconnect (trace (loop i) d0) = false).
Proof.
  intros Hclock. split.
  - apply attempts_spaced.
    apply Sorted_StronglySorted; [|exact Hclock].
    intros x y z. apply Z.le_trans.
  - intros i d0 Hc. destruct (loop_attempt i d0) as [Hatt _].
    cbv zeta in Hatt. rewrite Hatt. unfold Connected in Hc.
    rewrite Hc. reflexivity.
Qed.

End Properties.

(* ================================================================== *)
(** ** The calibration hold of the display *)
(* ================================================================== *)

(** [calibrateSensors] stores a timestamp 2000 ms in the future; the
    unsigned difference the screen task then computes is close to 2^32. *)
Lemma hold_timestamp_underflows (tc t : Z) :
  0 <= tc -> tc <= t < tc + 2000 -> tc + 2000 < ULONG_MOD ->
  ulong_sub (wrap_ulong t) (ulong_add (wrap_ulong tc) 2000)
  = t - tc - 2000 + ULONG_MOD.
Proof.
  unfold ulong_sub, ulong_add, wrap_ulong, ULONG_MOD. intros H0 Ht Hmax.
  rewrite (Z.mod_small t), (Z.mod_small tc), (Z.mod_small (tc + 2000)) by lia.
  replace (t - (tc + 2000)) with (t - tc - 2000 + 2 ^ 32 + (-1) * 2 ^ 32) by lia.
  rewrite Z.mod_add by lia. apply Z.mod_small. lia.
Qed.

Lemma task_screen_due (e : Env) (now : Z) (d : Device) :
  (ulong_sub now (lastScreenChange d) >=? screenInterval) = true ->
  task_screen e now d
  = (assign (set_lastScreenChange now) ;;
     reading (fun d =>
       assign (set_currentScreen (if currentScreen d =? 1 then 2 else 1))) ;;
     handleScreenUpdate e) d.
Proof.
  intros Hdue. unfold task_screen, reading at 1, If. rewrite Hdue. reflexivity.
Qed.

(** So the screen task that runs next, less than 2000 ms after a
    calibration, toggles the page at once. *)
Lemma screen_toggles_right_after_calibration (ec e : Env) (d : Device) :
  0 <= uptime ec -> uptime ec <= uptime e < uptime ec + 2000 ->
  uptime ec + 2000 < ULONG_MOD ->
  let d1 := run (calibrateSensors ec) d in
  let d2 := run (task_screen e (millis e)) d1 in
  currentScreen d2 = (if currentScreen d =? 1 then 2 else 1)
  /\ lastScreenChange d2 = millis e
  /\ In Elcd_clear (trace (task_screen e (millis e)) d1).
Proof.
  intros H0 Ht Hmax d1 d2.
  assert (Hdue : (ulong_sub (millis e) (lastScreenChange d1) >=? screenInterval)
                 = true).
  { subst d1. rewrite calibrateSensors_state.
    cbn [lastScreenChange set_lastScreenChange]. unfold millis.
    rewrite (hold_timestamp_underflows _ _ H0 Ht Hmax).
    apply Z.geb_le. unfold ULONG_MOD, screenInterval in *. lia. }
  subst d2. unfold run, trace.
  rewrite (task_screen_due e (millis e) d1 Hdue).
  subst d1. rewrite calibrateSensors_state.
  unfold handleScreenUpdate. step.
  destruct (currentScreen d =? 1); cbn;
    try destruct (is_WL_CONNECTED (wifi_status e)); cbn; auto.
Qed.

(** C5. The calibration hold does not hold. A device that switched to
    page 1 at uptime 9000 ms receives a [calibrate] frame in the pass at
    uptime 10000 ms. The handler stores 12000 in [lastScreenChange]; the
    screen task of the same pass computes 10000 - 12000 as an unsigned
    long, 4294965296, finds it at least 3000, toggles to page 2 and
    redraws the LCD over the calibration message, 1000 ms after the
    previous toggle, and stores 10000 so that the next toggle is due at
    13000. *)
Theorem C5_calibration_hold_is_lost :
  lastScreenChange hold_state = 9000
  /\ currentScreen hold_state = 1
  /\ lastScreenChange (run (webSocket_loop (lib := TableJson.json)
                                           (inbox hold_input)) hold_state)
     = 12000
  /\ ulong_sub (millis (env hold_input)) 12000 = 4294965296
  /\ currentScreen (run (bench_loop hold_input) hold_state) = 2
  /\ lastScreenChange (run (bench_loop hold_input) hold_state) = 10000
  /\ trace (bench_loop hold_input) hold_state
     = [ Eprintf ("[WebSocket] Received Payload: %s" ++ LF)%string
                 [Str TableJson.calibrate];
         Eprintln [Str "Calibration triggered remotely..."];
         Elcd_clear;
         Elcd_setCursor 0 0; Elcd_print (Str "Calibrating...");
         Elcd_setCursor 0 1; Elcd_print (Str "Please wait...");
         Eprintln [Str "Calibration complete. New Offsets set."];
         Elcd_clear;
         Elcd_setCursor 0 0; Elcd_print (Str "T:");
         Elcd_print (Flt (S754_zero false) 1);
         Elcd_print (Str "C H:");
         Elcd_print (Flt (S754_zero false) 0);
         Elcd_print (Str "%");
         Elcd_setCursor 0 1; Elcd_print (Str "Fan:"); Elcd_print (Int 0);
         Elcd_print (Str "% "); Elcd_print (Str "[ON]");
         EdigitalWrite PIN_WIFI_LED HIGH ].
Proof. repeat split; vm_compute; reflexivity. Qed.

(* ================================================================== *)
(** ** The properties at concrete inputs *)
(* ================================================================== *)

(** The scenario of the specification: [{"fan_speed": 400}] gives duty 255
    and the alert LED on. *)
Example fan_speed_400_is_clamped_to_255 :
  currentFanSpeed (run (bench_webSocketEvent bench_env WStype_TEXT
                                             TableJson.fan_400) power_on) = 255
  /\ out_ML_LED (run (bench_webSocketEvent bench_env WStype_TEXT
                                           TableJson.fan_400) power_on) = HIGH.
Proof. split; reflexivity. Qed.

(** The scenario of the specification: raw MQ9 3500, offset 0, link down
    gives duty 255 and the alert LED on. *)
Example mq9_3500_offline_runs_fan_at_255 :
  let e := env_at 5000 (fun p => match p with PIN_MQ9 => 3500 | _ => 0 end)
                  WL_DISCONNECTED in
  let d := run (bench_loop (mkLoopInput [] e)) power_on in
  mq9Val d = 3500 /\ currentFanSpeed d = 255 /\ out_FAN_PWM d = 255
  /\ out_ML_LED d = HIGH.
Proof. cbv zeta. repeat split; reflexivity. Qed.

Lemma C2_witness :
  deserializeJson (JsonLib := TableJson.json) TableJson.fan_128_calibrate
  = inl (TableJson.mkDoc (Some 128) (Some "calibrate"))
  /\ currentFanSpeed (run (bench_webSocketEvent bench_env WStype_TEXT
                             TableJson.fan_128_calibrate) power_on)
     = clamp 128 0 255.
Proof.
  split; [reflexivity|].
  apply (C2_fan_speed_is_clamped (lib := TableJson.json) bench_env
           TableJson.fan_128_calibrate
           (TableJson.mkDoc (Some 128) (Some "calibrate")) 128 power_on);
    reflexivity.
Defined.

Lemma C3_witness :
  nonneg_int (raw bench_env MQ9)
  /\ nonneg_int (offset (run (calibrateSensors bench_env) power_on) MQ9)
  /\ calibrated (run (readAndSendSensors bench_env)
                     (run (calibrateSensors bench_env) power_on)) MQ9
     = Z.max 0 (300 - 100).
Proof.
  assert (Hraw : nonneg_int (raw bench_env MQ9)).
  { unfold nonneg_int. vm_compute. split; discriminate. }
  assert (Hoff : nonneg_int
                   (offset (run (calibrateSensors bench_env) power_on) MQ9)).
  { unfold nonneg_int. vm_compute. split; discriminate. }
  split; [exact Hraw|]. split; [exact Hoff|].
  apply (C3_calibrated_is_floored_difference bench_env
           (run (calibrateSensors bench_env) power_on) MQ9 Hraw Hoff).
Defined.

Lemma C4_witness :
  nonneg_int (raw bench_env MQ135)
  /\ offset (run (calibrateSensors bench_env) power_on) MQ135
     = Z.max 0 (250 - CLEAN_AIR_FLOOR).
Proof.
  assert (Hraw : nonneg_int (raw bench_env MQ135)).
  { unfold nonneg_int. vm_compute. split; discriminate. }
  split; [exact Hraw|].
  pose proof (C4_offsets_after_recalibration bench_env power_on MQ135 Hraw)
    as Hc.
  cbv zeta in Hc. exact (proj1 Hc).
Defined.



Lemma C7_witness :
  reachable (lib := TableJson.json) (booted (fun _ => WL_CONNECTED))
  /\ duty_ok (booted (fun _ => WL_CONNECTED)).
Proof.
  assert (Hr : reachable (lib := TableJson.json) (booted (fun _ => WL_CONNECTED))).
  { apply reach_boot. }
  split; [exact Hr|].
  apply (C7_duty_domain_invariant (lib := TableJson.json) _ Hr).
Defined.

Lemma C8_witness :
  monotone_clock offline_run
  /\ attempt_times (lib := TableJson.json) offline_run power_on = [20000; 40000]
  /\ spaced 15000 (attempt_times (lib := TableJson.json) offline_run power_on).
Proof.
  assert (Hm : monotone_clock offline_run).
  { unfold monotone_clock, offline_run. cbn.
    repeat constructor. lia. }
  split; [exact Hm|]. split; [reflexivity|].
  apply (C8_reconnect_attempts_spaced (lib := TableJson.json)
           offline_run power_on Hm).
Defined.


(* ================================================================== *)
(** ** Beyond the specification: start-up *)
(* ================================================================== *)

Lemma total_delay_app (t1 t2 : list event) :
  total_delay (t1 ++ t2) = total_delay t1 + total_delay t2.
Proof. induction t1 as [|ev t1 IH]; cbn; [reflexivity | rewrite IH; lia]. Qed.

Lemma is_WL_CONNECTED_true (s : wl_status_t) :
  is_WL_CONNECTED s = true <-> s = WL_CONNECTED.
Proof. destruct s; cbn; split; congruence. Qed.

Lemma is_WL_CONNECTED_not (s : wl_status_t) :
  is_WL_CONNECTED s = false <-> s <> WL_CONNECTED.
Proof. destruct s; cbn; split; congruence. Qed.

(** The wait loop of [setup()]: how many status calls it makes, where it
    stops, how long it blocks and what it changes. *)
Lemma wifi_wait_spec (remaining : nat) (status : nat -> wl_status_t) :
  forall (polls : nat) (w : Action) (n : nat),
    wifi_wait remaining status polls = (w, n) ->
    (polls < n <= polls + remaining + 1)%nat
    /\ (forall k, (polls <= k)%nat -> (S k < n)%nat ->
                  status k <> WL_CONNECTED)
    /\ ((n < polls + remaining + 1)%nat -> status (pred n) = WL_CONNECTED)
    /\ (forall d, total_delay (trace w d) = 500 * Z.of_nat (n - 1 - polls))
    /\ (forall b d, set_out_WIFI_LED b (run w d) = set_out_WIFI_LED b d).
Proof.
  induction remaining as [|r IH]; intros polls w n Hw; cbn in Hw;
    destruct (is_WL_CONNECTED (status polls)) eqn:Hs.
  - injection Hw as Hw1 Hw2; subst w n.
    split; [lia|]. split; [intros; lia|].
    split; [intros _; now apply is_WL_CONNECTED_true|].
    split; [|reflexivity].
    intros d. replace (S polls - 1 - polls)%nat with O by lia. reflexivity.
  - injection Hw as Hw1 Hw2; subst w n.
    split; [lia|]. split; [intros; lia|].
    split; [intros; lia|].
    split; [|reflexivity].
    intros d. replace (S polls - 1 - polls)%nat with O by lia. reflexivity.
  - injection Hw as Hw1 Hw2; subst w n.
    split; [lia|]. split; [intros; lia|].
    split; [intros _; now apply is_WL_CONNECTED_true|].
    split; [|reflexivity].
    intros d. replace (S polls - 1 - polls)%nat with O by lia. reflexivity.
  - destruct (wifi_wait r status (S polls)) as [rest m] eqn:Hrest.
    injection Hw as Hw1 Hw2; subst w n.
    destruct (IH _ _ _ Hrest) as (Hn & Hbefore & Hstop & Hdelay & Hled).
    split; [lia|]. split; [|split; [|split]].
    + intros k Hk Hlt. destruct (Nat.eq_dec k polls) as [->|Hne].
      * now apply is_WL_CONNECTED_not.
      * apply Hbefore; lia.
    + intros Hlt. apply Hstop. lia.
    + intros d. rewrite !trace_seq, !total_delay_app, Hdelay.
      replace (m - 1 - polls)%nat with (S (m - 1 - S polls)) by lia.
      rewrite Nat2Z.inj_succ.
      generalize (Z.of_nat (m - 1 - S polls)). intros z.
      cbn -[Z.mul Z.add Z.succ]. lia.
    + intros b d. rewrite !run_seq, Hled. reflexivity.
Qed.

(** X1. The first association in [setup()] is bounded: [WiFi.status()] is
    called at most 61 times in the wait loop, the loop leaves at the first
    call that reports a connection or after 60 failed ones, and the whole
    of [setup()] blocks in [delay] for 7500 ms plus 500 ms per failed
    call, so for at most 37500 ms. *)
Theorem X1_setup_wait_is_bounded (status : nat -> wl_status_t) :
  let n := snd (wifi_wait maxAttempts status 0) in
  (1 <= n <= 61)%nat
  /\ (forall k, (S k < n)%nat -> status k <> WL_CONNECTED)
  /\ ((n < 61)%nat -> status (pred n) = WL_CONNECTED)
  /\ (forall d, total_delay (trace (setup status) d)
                = 7500 + 500 * Z.of_nat (n - 1))
  /\ (forall d, 7500 <= total_delay (trace (setup status) d) <= 37500).
Proof.
  cbv zeta.
  destruct (wifi_wait maxAttempts status 0) as [w n] eqn:Hw. cbn [snd].
  destruct (wifi_wait_spec _ _ _ _ _ Hw) as (Hn & Hbefore & Hstop & Hdelay & _).
  unfold maxAttempts in *.
  assert (Htotal : forall d, total_delay (trace (setup status) d)
                             = 7500 + 500 * Z.of_nat (n - 1)).
  { intros d. unfold setup, maxAttempts. rewrite Hw.
    rewrite !trace_seq, !total_delay_app, Hdelay.
    replace (n - 1 - 0)%nat with (n - 1)%nat by lia.
    generalize (Z.of_nat (n - 1)). intros z.
    unfold If. destruct (is_WL_CONNECTED (status n));
      cbn -[Z.mul Z.add]; lia. }
  split; [lia|]. split; [intros k Hk; apply Hbefore; lia|].
  split; [intros Hlt; apply Hstop; lia|].
  split; [exact Htotal|].
  intros d. rewrite Htotal. lia.
Qed.

Lemma booted_is_power_on (status : nat -> wl_status_t) :
  booted status
  = set_out_WIFI_LED
      (is_WL_CONNECTED (status (snd (wifi_wait maxAttempts status 0))))
      power_on.
Proof.
  unfold booted, setup.
  destruct (wifi_wait maxAttempts status 0) as [w n] eqn:Hw. cbn [snd].
  destruct (wifi_wait_spec _ _ _ _ _ Hw) as (_ & _ & _ & _ & Hled).
  step.
  match goal with
  | |- context [w ?s] =>
      specialize (fun b => Hled b s); unfold run in Hled;
      destruct (w s) as [d1 t1]
  end.
  cbn in Hled.
  destruct (is_WL_CONNECTED (status n)); cbn; apply Hled.
Qed.

(** X2. [setup()] changes nothing of the device state but the WiFi LED:
    every global keeps its initial value, the fan output is 0 and the alert
    LED is off, and the WiFi LED is on exactly when the status call after
    the wait loop reports a connection. *)
Theorem X2_setup_leaves_initial_state (status : nat -> wl_status_t) :
  booted status
  = set_out_WIFI_LED
      (is_WL_CONNECTED (status (snd (wifi_wait maxAttempts status 0))))
      power_on.
Proof. apply booted_is_power_on. Qed.

(* ================================================================== *)
(** ** Beyond the specification: what a pass keeps *)
(* ================================================================== *)

Lemma untouched_seq {A : Type} (field : Device -> A) (p : event -> bool)
      (a b : Action) :
  untouched field p a -> untouched field p b -> untouched field p (a ;; b).
Proof.
  intros Ha Hb d. rewrite run_seq, trace_seq, existsb_app.
  destruct (Ha d) as [Ha1 Ha2]. destruct (Hb (run a d)) as [Hb1 Hb2].
  rewrite Hb1, Ha1, Ha2, Hb2. split; reflexivity.
Qed.

Lemma untouched_reading {A : Type} (field : Device -> A) (p : event -> bool)
      (k : Device -> Action) :
  (forall d0, untouched field p (k d0)) -> untouched field p (reading k).
Proof. intros Hk d. exact (Hk d d). Qed.

Lemma untouched_If {A : Type} (field : Device -> A) (p : event -> bool)
      (c : bool) (a b : Action) :
  untouched field p a -> untouched field p b -> untouched field p (If c a b).
Proof. destruct c; auto. Qed.

Lemma untouched_skip {A : Type} (field : Device -> A) (p : event -> bool) :
  untouched field p skip.
Proof. intros d. split; reflexivity. Qed.

Lemma preserves_then (P : Device -> Prop) (a b : Action) :
  preserves P a -> preserves P b -> preserves P (a ;; b).
Proof. intros Ha Hb d Hd. rewrite run_seq. auto. Qed.

Lemma preserves_branch (P : Device -> Prop) (c : bool) (a b : Action) :
  preserves P a -> preserves P b -> preserves P (If c a b).
Proof. destruct c; auto. Qed.

Lemma preserves_reading (P : Device -> Prop) (k : Device -> Action) :
  (forall d0, preserves P (k d0)) -> preserves P (reading k).
Proof. intros Hk d. exact (Hk d d). Qed.

Lemma state_inv_fields (d d' : Device) :
  inv_fields d' = inv_fields d -> state_inv d -> state_inv d'.
Proof.
  unfold inv_fields, state_inv. intros Heq (Hled & Hscreen & Hoff & Hval).
  injection Heq as E1 E2 E3 E4 E5 E6 E7 E8 E9 E10 E11.
  rewrite E1, E2, E3. split; [exact Hled|]. split; [exact Hscreen|].
  split; intros c.
  - specialize (Hoff c). destruct c; cbn in *; congruence.
  - specialize (Hval c). destruct c; cbn in *; congruence.
Qed.

Lemma untouched_preserves (p : event -> bool) (a : Action) :
  untouched inv_fields p a -> preserves state_inv a.
Proof. intros Ha d Hd. eapply state_inv_fields; [apply Ha | exact Hd]. Qed.

Lemma max_0_nonneg (x : Z) : 0 <= max 0 x.
Proof. rewrite max_Zmax. lia. Qed.

Lemma preserves_inv_calibrateSensors (e : Env) :
  preserves state_inv (calibrateSensors e).
Proof.
  intros d (Hled & Hscreen & Hoff & Hval). rewrite calibrateSensors_state.
  split; [exact Hled|]. split; [exact Hscreen|]. split; intros c.
  - destruct c; cbn; apply max_0_nonneg.
  - specialize (Hval c). destruct c; exact Hval.
Qed.

Lemma readAndSendSensors_fields (e : Env) (d : Device) :
  out_ML_LED (run (readAndSendSensors e) d) = out_ML_LED d
  /\ currentFanSpeed (run (readAndSendSensors e) d) = currentFanSpeed d
  /\ currentScreen (run (readAndSendSensors e) d) = currentScreen d
  /\ (forall c, offset (run (readAndSendSensors e) d) c = offset d c).
Proof.
  unfold readAndSendSensors. step.
  destruct (isnan (dht_temperature e)), (isnan (dht_humidity e)),
           (ws_isConnected e); cbn; repeat split; intros c; destruct c;
    reflexivity.
Qed.

Lemma preserves_inv_readAndSendSensors (e : Env) :
  preserves state_inv (readAndSendSensors e).
Proof.
  intros d (Hled & Hscreen & Hoff & Hval).
  destruct (readAndSendSensors_fields e d) as (E1 & E2 & E3 & E4).
  unfold state_inv. rewrite E1, E2, E3.
  split; [exact Hled|]. split; [exact Hscreen|]. split; intros c.
  - rewrite E4. apply Hoff.
  - rewrite readAndSendSensors_calibrated. apply max_0_nonneg.
Qed.

Lemma preserves_inv_controlFailSafe : preserves state_inv controlFailSafe.
Proof.
  intros d (Hled & Hscreen & Hoff & Hval). unfold controlFailSafe. step.
  destruct (mq9Val d >? MQ9_FAILSAFE_THRESHOLD); cbn;
    (split; [reflexivity|]; split; [exact Hscreen|]; split; intros c;
     [specialize (Hoff c) | specialize (Hval c)]; destruct c; assumption).
Qed.

Lemma preserves_inv_task_sensors (e : Env) (now : Z) :
  preserves state_inv (task_sensors e now).
Proof.
  apply preserves_reading; intros d0. apply preserves_branch.
  - apply preserves_then; [|apply preserves_inv_readAndSendSensors].
    apply (untouched_preserves (fun _ => false)). by_computation.
  - apply (untouched_preserves (fun _ => false)), untouched_skip.
Qed.

Lemma preserves_inv_task_screen (e : Env) (now : Z) :
  preserves state_inv (task_screen e now).
Proof.
  apply preserves_reading; intros d0. apply preserves_branch.
  - apply preserves_then;
      [apply (untouched_preserves (fun _ => false)); by_computation|].
    apply preserves_then.
    + intros d (Hled & Hscreen & Hoff & Hval). unfold state_inv. step.
      split; [exact Hled|]. split.
      * destruct (currentScreen d =? 1); auto.
      * split; intros c; [specialize (Hoff c) | specialize (Hval c)];
          destruct c; assumption.
    + apply (untouched_preserves (fun _ => false)).
      unfold handleScreenUpdate. by_computation.
  - apply (untouched_preserves (fun _ => false)), untouched_skip.
Qed.

Lemma preserves_inv_task_failsafe (e : Env) (now : Z) :
  preserves state_inv (task_failsafe e now).
Proof.
  unfold task_failsafe. apply preserves_branch.
  - apply preserves_then;
      [apply (untouched_preserves (fun _ => false)); by_computation|].
    apply preserves_then; [apply preserves_inv_controlFailSafe|].
    apply preserves_reading; intros d0. apply preserves_branch;
      apply (untouched_preserves (fun _ => false)); by_computation.
  - apply (untouched_preserves (fun _ => false)). by_computation.
Qed.

Section Invariants.

Context {JsonDocument : Type} {lib : JsonLib JsonDocument}.

Lemma preserves_inv_webSocketEvent (e : Env) (type : WStype_t)
      (payload : string) :
  preserves state_inv (webSocketEvent e type payload).
Proof.
  unfold webSocketEvent.
  destruct type;
    try (apply (untouched_preserves (fun _ => false)); by_computation).
  apply preserves_then;
    [apply (untouched_preserves (fun _ => false)); by_computation|].
  destruct (deserializeJson payload) as [doc | err];
    [|apply (untouched_preserves (fun _ => false)); by_computation].
  apply preserves_then; apply preserves_branch;
    try (apply (untouched_preserves (fun _ => false)), untouched_skip);
    try apply preserves_inv_calibrateSensors.
  intros d (Hled & Hscreen & Hoff & Hval). unfold state_inv. step.
  destruct (constrain (as_int doc "fan_speed") 0 255 >? 0) eqn:Hpos; cbn;
    (split; [now rewrite Hpos|]; split; [exact Hscreen|]; split; intros c;
     [specialize (Hoff c) | specialize (Hval c)]; destruct c; assumption).
Qed.

Lemma preserves_inv_webSocket_loop (pending : list WsEvent) :
  preserves state_inv (webSocket_loop pending).
Proof.
  induction pending as [|ev rest IH]; cbn [webSocket_loop].
  - intros d Hd. exact Hd.
  - apply preserves_then; [apply preserves_inv_webSocketEvent | exact IH].
Qed.

Lemma preserves_inv_loop (i : LoopInput) : preserves state_inv (loop i).
Proof.
  unfold loop. cbv zeta.
  apply preserves_then; [apply preserves_inv_webSocket_loop|].
  apply preserves_then; [apply preserves_inv_task_sensors|].
  apply preserves_then; [apply preserves_inv_task_screen|].
  apply preserves_inv_task_failsafe.
Qed.

Lemma reachable_state_inv (d : Device) : reachable d -> state_inv d.
Proof.
  induction 1 as [status | i d Hr IH].
  - rewrite booted_is_power_on.
    unfold state_inv. cbn. split; [reflexivity|]. split; [auto|].
    split; intros c; destruct c; cbn; lia.
  - apply preserves_inv_loop, IH.
Qed.

End Invariants.

Section PassProperties.

Context {JsonDocument : Type} {lib : JsonLib JsonDocument}.

(** X10. In every state the device reaches, the alert LED is on exactly
    when the actuator duty is positive, whoever set the duty last. *)
Theorem X10_alert_led_follows_duty (d : Device) :
  reachable d -> out_ML_LED d = (currentFanSpeed d >? 0).
Proof. intros Hr. apply (reachable_state_inv d Hr). Qed.

(** X11. In every state the device reaches, the page index is 1 or 2. *)
Theorem X11_page_index_is_1_or_2 (d : Device) :
  reachable d -> currentScreen d = 1 \/ currentScreen d = 2.
Proof. intros Hr. apply (reachable_state_inv d Hr). Qed.

(** X12. In every state the device reaches, whatever the ADC returned and
    whatever frames arrived, no calibration offset and no calibrated
    reading is negative. *)
Theorem X12_offsets_and_readings_nonnegative (d : Device) (c : channel) :
  reachable d -> 0 <= offset d c /\ 0 <= calibrated d c.
Proof.
  intros Hr. destruct (reachable_state_inv d Hr) as (_ & _ & Hoff & Hval).
  split; [apply Hoff | apply Hval].
Qed.

(** X3. After every pass of the main loop the WiFi LED shows the link
    state that pass observed: on when [WiFi.status()] was [WL_CONNECTED],
    off otherwise. *)
Theorem X3_wifi_led_mirrors_link (i : LoopInput) (d : Device) :
  out_WIFI_LED (run (loop i) d) = is_WL_CONNECTED (wifi_status (env i)).
Proof.
  rewrite loop_run. generalize (run (loop_prefix i) d) as s. intros s.
  unfold task_failsafe, controlFailSafe.
  destruct (is_WL_CONNECTED (wifi_status (env i))); step; [reflexivity|].
  destruct (mq9Val s >? MQ9_FAILSAFE_THRESHOLD); cbn;
    match goal with
    | |- context [if ?c then _ else _] => destruct c
    end; reflexivity.
Qed.

(** A text frame or other event never blocks, reads the sensors or
    touches the sensor and retry timestamps. *)
Lemma webSocketEvent_quick (e : Env) (type : WStype_t) (payload : string) :
  untouched (fun d => (lastSensorRead d, lastWiFiRetry d))
            (fun ev => is_delay ev || is_telemetry_log ev)
            (webSocketEvent e type payload).
Proof.
  unfold webSocketEvent.
  destruct type; try by_computation.
  apply untouched_seq; [by_computation|].
  destruct (deserializeJson payload) as [doc | err]; [|by_computation].
  apply untouched_seq; apply untouched_If;
    try apply untouched_skip.
  - by_computation.
  - unfold calibrateSensors. by_computation.
Qed.

Lemma webSocket_loop_quick (pending : list WsEvent) :
  untouched (fun d => (lastSensorRead d, lastWiFiRetry d))
            (fun ev => is_delay ev || is_telemetry_log ev)
            (webSocket_loop pending).
Proof.
  induction pending as [|ev rest IH]; cbn [webSocket_loop].
  - apply untouched_skip.
  - apply untouched_seq; [apply webSocketEvent_quick | exact IH].
Qed.

Lemma existsb_orb_false {A : Type} (p q : A -> bool) (l : list A) :
  existsb (fun x => p x || q x) l = false ->
  existsb p l = false /\ existsb q l = false.
Proof.
  induction l as [|x l IH]; cbn; [auto|].
  intros Hx. apply orb_false_elim in Hx. destruct Hx as [Hx Hl].
  apply orb_false_elim in Hx. destruct Hx as [Hp Hq].
  destruct (IH Hl) as [IHp IHq]. rewrite Hp, Hq, IHp, IHq. auto.
Qed.

Lemma filter_none {A : Type} (p : A -> bool) (l : list A) :
  existsb p l = false -> filter p l = [].
Proof.
  induction l as [|x l IH]; cbn; [auto|].
  intros Hx. apply orb_false_elim in Hx. destruct Hx as [Hp Hl].
  rewrite Hp. auto.
Qed.

Lemma loop_prefix_never_delays (i : LoopInput) (d : Device) :
  existsb is_delay (trace (loop_prefix i) d) = false.
Proof.
  assert (Hu : untouched (fun _ : Device => tt) is_delay (loop_prefix i)).
  { unfold loop_prefix, task_sensors, task_screen.
    apply untouched_seq.
    - intros s. split; [reflexivity|].
      destruct (webSocket_loop_quick (inbox i) s) as [_ Hq].
      now apply existsb_orb_false in Hq.
    - apply untouched_seq.
      + apply untouched_reading; intros d0.
        apply untouched_If; [|apply untouched_skip].
        apply untouched_seq; [by_computation|].
        unfold readAndSendSensors. by_computation.
      + apply untouched_reading; intros d0.
        apply untouched_If; [|apply untouched_skip].
        apply untouched_seq; [by_computation|].
        apply untouched_seq; [by_computation|].
        unfold handleScreenUpdate. by_computation. }
  apply Hu.
Qed.

(** X4. A pass of the main loop calls [delay] only when it attempts a
    WiFi reconnect, and then once, for 500 ms; every other pass runs
    through without blocking. *)
Theorem X4_loop_blocks_only_to_reconnect (i : LoopInput) (d : Device) :
  filter is_delay (trace (loop i) d)
  = (if attempts_reconnect (trace (loop i) d) then [Edelay 500] else [])
  /\ total_delay (trace (loop i) d)
     = (if attempts_reconnect (trace (loop i) d) then 500 else 0).
Proof.
  destruct (loop_attempt i d) as [Hatt _]. cbv zeta in Hatt. rewrite Hatt.
  rewrite loop_trace, filter_app, total_delay_app.
  pose proof (loop_prefix_never_delays i d) as Hq.
  rewrite (filter_none _ _ Hq).
  assert (Hz : total_delay (trace (loop_prefix i) d) = 0).
  { revert Hq. generalize (trace (loop_prefix i) d) as t.
    induction t as [|ev t IH]; cbn; [reflexivity|].
    intros Hx. apply orb_false_elim in Hx. destruct Hx as [Hev Ht].
    rewrite (IH Ht). destruct ev; cbn in *; try reflexivity; discriminate. }
  rewrite Hz.
  destruct (no_reconnect_loop_prefix i d) as [Hl _].
  rewrite <- Hl. generalize (run (loop_prefix i) d) as s. intros s.
  unfold task_failsafe, controlFailSafe.
  destruct (is_WL_CONNECTED (wifi_status (env i))); step;
    [split; reflexivity|].
  destruct (mq9Val s >? MQ9_FAILSAFE_THRESHOLD); cbn;
    destruct (ulong_sub (millis (env i)) (lastWiFiRetry s)
              >=? wifiRetryInterval); cbn; split; reflexivity.
Qed.

(** X5. A text frame that decodes to a document with no [fan_speed] key
    and no [calibrate] command (no [command] key, or another command) is
    a no-op: the state is unchanged and the only output is the receipt
    line. *)
Theorem X5_unrecognised_frame_is_ignored (e : Env) (payload : string)
        (doc : JsonDocument) (d : Device) :
  deserializeJson payload = inl doc ->
  containsKey doc "fan_speed" = false ->
  containsKey doc "command" && eq_literal doc "command" "calibrate" = false ->
  run (webSocketEvent e WStype_TEXT payload) d = d
  /\ trace (webSocketEvent e WStype_TEXT payload) d
     = [Eprintf ("[WebSocket] Received Payload: %s" ++ LF)%string
                [Str payload]].
Proof.
  intros Hdec Hfan Hcmd. unfold webSocketEvent.
  rewrite Hdec, Hfan, Hcmd. split; reflexivity.
Qed.

Lemma non_text_event_keeps_state (e : Env) (type : WStype_t)
      (payload : string) (d : Device) :
  type <> WStype_TEXT ->
  run (webSocketEvent e type payload) d = d
  /\ existsb is_output_write (trace (webSocketEvent e type payload) d) = false.
Proof.
  intros Hty. destruct type; try (split; reflexivity). now elim Hty.
Qed.

Lemma pump_without_text_frames (pending : list WsEvent) (d : Device) :
  Forall (fun ev => ev_type ev <> WStype_TEXT) pending ->
  run (webSocket_loop pending) d = d
  /\ existsb is_output_write (trace (webSocket_loop pending) d) = false.
Proof.
  induction 1 as [|ev rest Hev Hrest IH]; cbn [webSocket_loop].
  - split; reflexivity.
  - destruct (non_text_event_keeps_state (ev_env ev) _ (ev_payload ev) d Hev)
      as [Hrun Hout].
    rewrite run_seq, trace_seq, existsb_app, Hrun, Hout.
    destruct IH as [IH1 IH2]. rewrite IH1, IH2. split; reflexivity.
Qed.

(** X6. Connection, disconnection, binary, ping, pong and error events
    never change the device: a pump that delivers no text frame leaves the
    whole state as it was and writes to no output pin. *)
Theorem X6_only_text_frames_change_state (pending : list WsEvent)
        (d : Device) :
  Forall (fun ev => ev_type ev <> WStype_TEXT) pending ->
  run (webSocket_loop pending) d = d
  /\ existsb is_output_write (trace (webSocket_loop pending) d) = false.
Proof. apply pump_without_text_frames. Qed.

Lemma tasks_keep_command_fields (e : Env) (now : Z) :
  untouched command_fields (fun _ => false)
            (task_sensors e now ;; task_screen e now).
Proof.
  unfold task_sensors, task_screen. apply untouched_seq.
  - apply untouched_reading; intros d0.
    apply untouched_If; [|apply untouched_skip].
    apply untouched_seq; [by_computation|].
    unfold readAndSendSensors. by_computation.
  - apply untouched_reading; intros d0.
    apply untouched_If; [|apply untouched_skip].
    apply untouched_seq; [by_computation|].
    apply untouched_seq; [by_computation|].
    unfold handleScreenUpdate. by_computation.
Qed.

(** X7. While the link is up, a pass in which no text frame arrives
    leaves the duty, the PWM output, the alert LED and the four offsets as
    they were: only a remote command changes them. *)
Theorem X7_connected_pass_without_commands (i : LoopInput) (d : Device) :
  Connected (env i) ->
  no_text_frames i ->
  command_fields (run (loop i) d) = command_fields d.
Proof.
  intros Hc Hn. unfold Connected in Hc. unfold no_text_frames in Hn.
  unfold loop. cbv zeta. rewrite run_seq.
  destruct (pump_without_text_frames _ d Hn) as [-> _].
  change (task_sensors (env i) (millis (env i)) ;;
          task_screen (env i) (millis (env i)) ;;
          task_failsafe (env i) (millis (env i)))
    with (task_sensors (env i) (millis (env i)) ;;
          (task_screen (env i) (millis (env i)) ;;
           task_failsafe (env i) (millis (env i)))).
  rewrite !run_seq.
  destruct (tasks_keep_command_fields (env i) (millis (env i)) d) as [Hk _].
  rewrite run_seq in Hk. rewrite <- Hk.
  unfold task_failsafe. rewrite Hc. reflexivity.
Qed.

End PassProperties.

(* ================================================================== *)
(** ** Beyond the specification: sensor cycle and display *)
(* ================================================================== *)

(** X8. Calibration zeroes the air it was done in down to the floor: a
    sensor-read cycle that follows a calibration and samples the same raw
    value on a channel stores min(raw, 200) for it, so exactly 200 whenever
    the raw value is at least 200. *)
Theorem X8_read_after_calibration_gives_floor (e e2 : Env) (d : Device)
        (c : channel) :
  nonneg_int (raw e c) ->
  raw e2 c = raw e c ->
  calibrated (run (readAndSendSensors e2) (run (calibrateSensors e) d)) c
  = Z.min (raw e c) CLEAN_AIR_FLOOR.
Proof.
  intros Hraw Hsame.
  rewrite readAndSendSensors_calibrated, calibrateSensors_offset, Hsame.
  rewrite !max_Zmax. unfold nonneg_int, INT_MAX in Hraw.
  unfold int_sub, CLEAN_AIR_FLOOR.
  rewrite (wrap_int_id (raw e c - 200))
    by (unfold int_range, INT_MIN, INT_MAX; lia).
  rewrite wrap_int_id by (unfold int_range, INT_MIN, INT_MAX; lia).
  lia.
Qed.

(** X9. Every sensor-read cycle builds one telemetry frame from the state
    as the cycle leaves it (fresh calibrated readings, the temperature and
    humidity kept or replaced, the current duty); it logs the frame on the
    serial console in any case and sends it on the WebSocket exactly when
    the socket is connected; the four gas/dust fields of the frame are
    never negative. *)
Theorem X9_one_telemetry_frame_per_cycle (e : Env) (d : Device) :
  let d' := run (readAndSendSensors e) d in
  trace (readAndSendSensors e) d
  = (if ws_isConnected e
     then [ EsendTXT (Telemetry (frame_of d'));
            Eprintln [Str "Transmitted: "; Json (frame_of d')] ]
     else [ Eprintln [Str "WS Disconnected. Local Data: ";
                      Json (frame_of d')] ])
  /\ 0 <= f_mq135 (frame_of d') /\ 0 <= f_mq8 (frame_of d')
  /\ 0 <= f_mq9 (frame_of d') /\ 0 <= f_dust (frame_of d')
  /\ f_fan_speed (frame_of d') = currentFanSpeed d.
Proof.
  cbv zeta. unfold readAndSendSensors, frame_of. step.
  destruct (isnan (dht_temperature e)), (isnan (dht_humidity e)),
           (ws_isConnected e); cbn;
    repeat split; try apply max_0_nonneg.
Qed.

(** X16. Page 2 of the LCD shows the duty as the percentage
    duty * 100 / 255 rounded down, which for a duty of 0..255 lies in
    0..100. *)
Theorem X16_fan_percentage_on_page_2 (e : Env) (d : Device) :
  0 <= currentFanSpeed d <= 255 ->
  currentScreen d <> 1 ->
  In (Elcd_print (Int (currentFanSpeed d * 100 / 255)))
     (trace (handleScreenUpdate e) d)
  /\ 0 <= currentFanSpeed d * 100 / 255 <= 100.
Proof.
  intros Hduty Hpage.
  assert (Hmap : map (currentFanSpeed d) 0 255 0 100
                 = currentFanSpeed d * 100 / 255).
  { unfold map. rewrite Z.quot_div_nonneg by lia.
    replace ((currentFanSpeed d - 0) * (100 - 0)) with (currentFanSpeed d * 100)
      by lia.
    replace (255 - 0) with 255 by lia. lia. }
  split.
  - unfold handleScreenUpdate. step.
    apply Z.eqb_neq in Hpage. rewrite Hpage. cbn. rewrite Hmap.
    destruct (is_WL_CONNECTED (wifi_status e)); cbn; auto 20.
  - split; [apply Z.div_pos; lia|].
    apply Z.div_le_upper_bound; lia.
Qed.

(* ================================================================== *)
(** ** Beyond the specification: task cadences *)
(* ================================================================== *)

Section CadenceFacts.

Variable fires : LoopInput -> Device -> bool.
Variable step_of : LoopInput -> Device -> Device.
Variable stamp : Device -> Z.
Variable interval : Z.
Variable ok : LoopInput -> Prop.

Hypothesis fires_due :
  forall i d, ok i -> fires i d = true ->
              interval <= ulong_sub (millis (env i)) (stamp d).
Hypothesis stamp_step :
  forall i d, ok i ->
              stamp (step_of i d)
              = if fires i d then millis (env i) else stamp d.

Lemma fire_times_after (inputs : list LoopInput) :
  forall (d : Device) (T0 : Z),
    stamp d = wrap_ulong T0 ->
    Forall ok inputs ->
    Forall (fun i => T0 <= uptime (env i)) inputs ->
    StronglySorted Z.le (List.map (fun i => uptime (env i)) inputs) ->
    Forall (fun t => interval <= t - T0) (fire_times fires step_of inputs d)
    /\ spaced interval (fire_times fires step_of inputs d).
Proof.
  induction inputs as [|i rest IH]; intros d T0 Hlast Hok Hge Hsorted.
  - cbn. split; constructor.
  - cbn [fire_times].
    inversion Hok as [|? ? Hoki Hokrest]; subst.
    inversion Hge as [|? ? Hi Hrest]; subst.
    cbn [List.map] in Hsorted.
    inversion Hsorted as [|? ? Hsrest Hhead]; subst.
    rewrite Forall_map in Hhead.
    pose proof (stamp_step i d Hoki) as Hstamp.
    destruct (fires i d) eqn:Hf.
    + pose proof (fires_due i d Hoki Hf) as Hdue. rewrite Hlast in Hdue.
      pose proof (ulong_sub_elapsed T0 (uptime (env i)) Hi) as Hel.
      fold (millis (env i)) in Hel.
      destruct (IH (step_of i d) (uptime (env i)) Hstamp Hokrest Hhead Hsrest)
        as [Hall Hsp].
      cbn [app]. split.
      * constructor; [lia|].
        eapply Forall_impl; [|exact Hall]. cbn. intros t Ht. lia.
      * apply spaced_after; assumption.
    + destruct (IH (step_of i d) T0) as [Hall Hsp]; try assumption.
      * rewrite Hstamp. exact Hlast.
      * cbn [app]. split; assumption.
Qed.

Lemma fire_times_spaced (inputs : list LoopInput) :
  forall d : Device,
    Forall ok inputs ->
    monotone_clock inputs ->
    spaced interval (fire_times fires step_of inputs d).
Proof.
  unfold monotone_clock.
  induction inputs as [|i rest IH]; intros d Hok Hclock.
  - constructor.
  - cbn [fire_times]. cbn [List.map] in Hclock.
    inversion Hok as [|? ? Hoki Hokrest]; subst.
    assert (Hsorted : StronglySorted Z.le
                        (uptime (env i)
                         :: List.map (fun i => uptime (env i)) rest)).
    { apply Sorted_StronglySorted; [|exact Hclock].
      intros x y z. apply Z.le_trans. }
    inversion Hsorted as [|? ? Hsrest Hhead]; subst.
    rewrite Forall_map in Hhead.
    pose proof (stamp_step i d Hoki) as Hstamp.
    destruct (fires i d) eqn:Hf.
    + destruct (fire_times_after rest (step_of i d) (uptime (env i))
                                 Hstamp Hokrest Hhead Hsrest) as [Hall Hsp].
      cbn [app]. apply spaced_after; assumption.
    + cbn [app]. apply IH; [exact Hokrest|].
      inversion Hclock; assumption.
Qed.

End CadenceFacts.

Lemma task_sensors_spec (e : Env) (now : Z) (d : Device) :
  let due := ulong_sub now (lastSensorRead d) >=? sensorInterval in
  reads_sensors (trace (task_sensors e now) d) = due
  /\ lastSensorRead (run (task_sensors e now) d)
     = if due then now else lastSensorRead d.
Proof.
  cbv zeta. unfold run, trace, task_sensors. unfold reading at 1 2. unfold If.
  destruct (ulong_sub now (lastSensorRead d) >=? sensorInterval);
    [|split; reflexivity].
  unfold readAndSendSensors. step.
  destruct (isnan (dht_temperature e)), (isnan (dht_humidity e)),
           (ws_isConnected e); cbn; split; reflexivity.
Qed.

Lemma later_tasks_keep_sensor_stamp (e : Env) (now : Z) :
  untouched lastSensorRead is_telemetry_log
            (task_screen e now ;; task_failsafe e now).
Proof.
  unfold task_screen, task_failsafe. apply untouched_seq.
  - apply untouched_reading; intros d0.
    apply untouched_If; [|apply untouched_skip].
    apply untouched_seq; [by_computation|].
    apply untouched_seq; [by_computation|].
    unfold handleScreenUpdate. by_computation.
  - apply untouched_If; [|by_computation].
    apply untouched_seq; [by_computation|].
    apply untouched_seq; [unfold controlFailSafe; by_computation|].
    apply untouched_reading; intros d0.
    apply untouched_If; [by_computation | apply untouched_skip].
Qed.

Lemma handleScreenUpdate_keeps_screen (e : Env) :
  untouched screen_fields (fun _ => false) (handleScreenUpdate e).
Proof. unfold handleScreenUpdate. by_computation. Qed.

Lemma task_screen_spec (e : Env) (now : Z) (d : Device) :
  let due := ulong_sub now (lastScreenChange d) >=? screenInterval in
  negb (currentScreen (run (task_screen e now) d) =? currentScreen d) = due
  /\ lastScreenChange (run (task_screen e now) d)
     = if due then now else lastScreenChange d.
Proof.
  cbv zeta.
  destruct (ulong_sub now (lastScreenChange d) >=? screenInterval) eqn:Hdue.
  - assert (Hrun : run (task_screen e now) d
                   = run (handleScreenUpdate e)
                       (set_currentScreen
                          (if currentScreen d =? 1 then 2 else 1)
                          (set_lastScreenChange now d))).
    { unfold run at 1. rewrite (task_screen_due e now d Hdue).
      match goal with
      | |- fst (?x d) = _ => change (fst (x d)) with (run x d)
      end.
      rewrite !run_seq. reflexivity. }
    rewrite Hrun.
    match goal with
    | |- context [run (handleScreenUpdate e) ?s] =>
        destruct (handleScreenUpdate_keeps_screen e s) as [Hk _]
    end.
    injection Hk as Hk1 Hk2. rewrite Hk1, Hk2.
    cbn [currentScreen lastScreenChange set_currentScreen set_lastScreenChange].
    split; [|reflexivity].
    destruct (currentScreen d =? 1) eqn:Hpage.
    + apply Z.eqb_eq in Hpage. rewrite Hpage. reflexivity.
    + rewrite Z.eqb_sym, Hpage. reflexivity.
  - assert (Hskip : task_screen e now d = (d, [])).
    { unfold task_screen, reading at 1, If. rewrite Hdue. reflexivity. }
    unfold run. rewrite Hskip. cbn [fst]. rewrite Z.eqb_refl.
    split; reflexivity.
Qed.

Lemma task_sensors_keeps_screen (e : Env) (now : Z) :
  untouched screen_fields (fun _ => false) (task_sensors e now).
Proof.
  unfold task_sensors. apply untouched_reading; intros d0.
  apply untouched_If; [|apply untouched_skip].
  apply untouched_seq; [by_computation|].
  unfold readAndSendSensors. by_computation.
Qed.

Lemma task_failsafe_keeps_screen (e : Env) (now : Z) :
  untouched screen_fields (fun _ => false) (task_failsafe e now).
Proof.
  unfold task_failsafe.
  apply untouched_If; [|by_computation].
  apply untouched_seq; [by_computation|].
  apply untouched_seq; [unfold controlFailSafe; by_computation|].
  apply untouched_reading; intros d0.
  apply untouched_If; [by_computation | apply untouched_skip].
Qed.

Section Cadences.

Context {JsonDocument : Type} {lib : JsonLib JsonDocument}.

(** Whether a pass runs a sensor-read cycle, as the source decides it. *)
Lemma loop_reads (i : LoopInput) (d : Device) :
  let due := ulong_sub (millis (env i)) (lastSensorRead d) >=? sensorInterval in
  reads_sensors (trace (loop i) d) = due
  /\ lastSensorRead (run (loop i) d)
     = if due then millis (env i) else lastSensorRead d.
Proof.
  cbv zeta. unfold loop. cbv zeta.
  rewrite !trace_seq, !run_seq.
  destruct (webSocket_loop_quick (inbox i) d) as [Hf Hq].
  injection Hf as Hstamp _.
  apply existsb_orb_false in Hq. destruct Hq as [_ Hq].
  set (s := run (webSocket_loop (inbox i)) d) in *.
  destruct (task_sensors_spec (env i) (millis (env i)) s) as [Hr Hl].
  cbv zeta in Hr, Hl. rewrite Hstamp in Hr, Hl.
  set (s1 := run (task_sensors (env i) (millis (env i))) s) in *.
  destruct (later_tasks_keep_sensor_stamp (env i) (millis (env i)) s1)
    as [Hk Hn].
  rewrite trace_seq, existsb_app in Hn. rewrite run_seq in Hk.
  apply orb_false_elim in Hn. destruct Hn as [Hn1 Hn2].
  unfold reads_sensors in *. rewrite !existsb_app, Hq, Hr, Hn1, Hn2, Hk, Hl.
  cbn. rewrite !orb_false_r. split; reflexivity.
Qed.

(** Whether a pass without text frames changes the page. *)
Lemma loop_toggles (i : LoopInput) (d : Device) :
  no_text_frames i ->
  let due := ulong_sub (millis (env i)) (lastScreenChange d)
             >=? screenInterval in
  negb (currentScreen (run (loop i) d) =? currentScreen d) = due
  /\ lastScreenChange (run (loop i) d)
     = if due then millis (env i) else lastScreenChange d.
Proof.
  intros Hn. cbv zeta. unfold loop. cbv zeta. rewrite !run_seq.
  destruct (pump_without_text_frames _ d Hn) as [-> _].
  destruct (task_sensors_keeps_screen (env i) (millis (env i)) d) as [Hs _].
  injection Hs as Hs1 Hs2.
  set (s1 := run (task_sensors (env i) (millis (env i))) d) in *.
  destruct (task_screen_spec (env i) (millis (env i)) s1) as [Ht Hl].
  cbv zeta in Ht, Hl. rewrite Hs1, Hs2 in *.
  set (s2 := run (task_screen (env i) (millis (env i))) s1) in *.
  destruct (task_failsafe_keeps_screen (env i) (millis (env i)) s2) as [Hf _].
  injection Hf as Hf1 Hf2.
  rewrite Hf1, Hf2. split; assumption.
Qed.

(** X13. A pass runs a sensor-read cycle exactly when at least 5000 ms
    have passed since the pass that ran the last one, and this stays right
    when [millis()] rolls over in between (for gaps below 2^32 ms). *)
Theorem X13_sensor_cycle_due_across_rollover (i : LoopInput) (d : Device)
        (T0 : Z) :
  lastSensorRead d = wrap_ulong T0 ->
  T0 <= uptime (env i) < T0 + ULONG_MOD ->
  reads_sensors (trace (loop i) d) = (5000 <=? uptime (env i) - T0)
  /\ lastSensorRead (run (loop i) d)
     = (if 5000 <=? uptime (env i) - T0 then millis (env i)
        else lastSensorRead d).
Proof.
  intros Hlast Hgap. destruct (loop_reads i d) as [Hr Hl].
  cbv zeta in Hr, Hl. rewrite Hr, Hl, Hlast.
  assert (Hsub : ulong_sub (millis (env i)) (wrap_ulong T0)
                 = uptime (env i) - T0).
  { unfold ulong_sub, millis, wrap_ulong. rewrite <- Zminus_mod.
    apply Z.mod_small. unfold ULONG_MOD in *. lia. }
  rewrite Hsub, Z.geb_leb. unfold sensorInterval. split; reflexivity.
Qed.

(** X14. Over any run of the main loop whose clock does not run backwards,
    the passes that run a sensor-read cycle, and so the telemetry frames,
    are at least 5000 ms of uptime apart from one to the next. *)
Theorem X14_sensor_cycles_spaced (inputs : list LoopInput) (d : Device) :
  monotone_clock inputs ->
  spaced 5000 (read_times inputs d).
Proof.
  intros Hclock. unfold read_times.
  apply (fire_times_spaced _ _ lastSensorRead sensorInterval (fun _ => True));
    try assumption.
  - intros i s _ Hf. destruct (loop_reads i s) as [Hr _]. cbv zeta in Hr.
    rewrite Hr in Hf. now apply Z.geb_le in Hf.
  - intros i s _. destruct (loop_reads i s) as [Hr Hl]. cbv zeta in Hr, Hl.
    rewrite Hr. exact Hl.
  - apply Forall_forall. auto.
Qed.

(** X15. Over any run whose clock does not run backwards and in which no
    text frame arrives, the passes that change the LCD page are at least
    3000 ms of uptime apart from one to the next. *)
Theorem X15_page_toggles_spaced_without_frames (inputs : list LoopInput)
        (d : Device) :
  Forall no_text_frames inputs ->
  monotone_clock inputs ->
  spaced 3000 (toggle_times inputs d).
Proof.
  intros Hquiet Hclock. unfold toggle_times.
  apply (fire_times_spaced _ _ lastScreenChange screenInterval no_text_frames);
    try assumption.
  - intros i s Hn Hf. destruct (loop_toggles i s Hn) as [Ht _].
    cbv zeta in Ht. rewrite Ht in Hf. now apply Z.geb_le in Hf.
  - intros i s Hn. destruct (loop_toggles i s Hn) as [Ht Hl].
    cbv zeta in Ht, Hl. rewrite Ht. exact Hl.
Qed.

End Cadences.

(* ================================================================== *)
(** ** The further properties at concrete inputs *)
(* ================================================================== *)

Lemma X5_witness :
  deserializeJson (JsonLib := const_json manual_fan_doc) "frame"
  = inl manual_fan_doc
  /\ run (webSocketEvent (lib := const_json manual_fan_doc) bench_env
                         WStype_TEXT "frame") power_on = power_on.
Proof.
  split; [reflexivity|].
  apply (X5_unrecognised_frame_is_ignored (lib := const_json manual_fan_doc)
           bench_env "frame" manual_fan_doc power_on);
    reflexivity.
Defined.

Lemma X6_witness :
  Forall (fun ev => ev_type ev <> WStype_TEXT)
         [mkWsEvent bench_env WStype_CONNECTED "/ws/edge-node";
          mkWsEvent bench_env WStype_PING ""]
  /\ run (webSocket_loop (lib := TableJson.json)
            [mkWsEvent bench_env WStype_CONNECTED "/ws/edge-node";
             mkWsEvent bench_env WStype_PING ""]) hold_state = hold_state.
Proof.
  assert (Hn : Forall (fun ev => ev_type ev <> WStype_TEXT)
                 [mkWsEvent bench_env WStype_CONNECTED "/ws/edge-node";
                  mkWsEvent bench_env WStype_PING ""]).
  { repeat constructor; discriminate. }
  split; [exact Hn|].
  apply (X6_only_text_frames_change_state (lib := TableJson.json) _
           hold_state Hn).
Defined.

Lemma X7_witness :
  Connected bench_env
  /\ no_text_frames (mkLoopInput [] bench_env)
  /\ command_fields (run (bench_loop (mkLoopInput [] bench_env)) hold_state)
     = command_fields hold_state.
Proof.
  assert (Hc : Connected (env (mkLoopInput [] bench_env))) by reflexivity.
  assert (Hn : no_text_frames (mkLoopInput [] bench_env)) by constructor.
  split; [exact Hc|]. split; [exact Hn|].
  apply (X7_connected_pass_without_commands (lib := TableJson.json)
           (mkLoopInput [] bench_env) hold_state Hc Hn).
Defined.

Lemma X8_witness :
  nonneg_int (raw bench_env MQ9)
  /\ calibrated (run (readAndSendSensors bench_env)
                     (run (calibrateSensors bench_env) power_on)) MQ9
     = Z.min 300 CLEAN_AIR_FLOOR.
Proof.
  assert (Hraw : nonneg_int (raw bench_env MQ9)).
  { unfold nonneg_int. vm_compute. split; discriminate. }
  split; [exact Hraw|].
  apply (X8_read_after_calibration_gives_floor bench_env bench_env power_on
           MQ9 Hraw eq_refl).
Defined.

Lemma X10_witness :
  reachable (lib := TableJson.json) (booted (fun _ => WL_DISCONNECTED))
  /\ out_ML_LED (booted (fun _ => WL_DISCONNECTED))
     = (currentFanSpeed (booted (fun _ => WL_DISCONNECTED)) >? 0).
Proof.
  assert (Hr : reachable (lib := TableJson.json)
                 (booted (fun _ => WL_DISCONNECTED))) by apply reach_boot.
  split; [exact Hr|].
  apply (X10_alert_led_follows_duty (lib := TableJson.json) _ Hr).
Defined.

Lemma X11_witness :
  reachable (lib := TableJson.json)
            (run (bench_loop hold_input) (booted (fun _ => WL_CONNECTED)))
  /\ (currentScreen (run (bench_loop hold_input)
                         (booted (fun _ => WL_CONNECTED))) = 1
      \/ currentScreen (run (bench_loop hold_input)
                            (booted (fun _ => WL_CONNECTED))) = 2).
Proof.
  assert (Hr : reachable (lib := TableJson.json)
                 (run (bench_loop hold_input)
                      (booted (fun _ => WL_CONNECTED)))).
  { apply reach_loop, reach_boot. }
  split; [exact Hr|].
  apply (X11_page_index_is_1_or_2 (lib := TableJson.json) _ Hr).
Defined.

Lemma X12_witness :
  reachable (lib := TableJson.json)
            (run (bench_loop hold_input) (booted (fun _ => WL_CONNECTED)))
  /\ 0 <= offset (run (bench_loop hold_input)
                      (booted (fun _ => WL_CONNECTED))) MQ9.
Proof.
  assert (Hr : reachable (lib := TableJson.json)
                 (run (bench_loop hold_input)
                      (booted (fun _ => WL_CONNECTED)))).
  { apply reach_loop, reach_boot. }
  split; [exact Hr|].
  apply (X12_offsets_and_readings_nonnegative (lib := TableJson.json) _ MQ9 Hr).
Defined.

Lemma X13_witness :
  lastSensorRead power_on = wrap_ulong 0
  /\ reads_sensors
       (trace (bench_loop (mkLoopInput [] (env_at 5000 scenario_adc WL_CONNECTED)))
              power_on)
     = (5000 <=? 5000 - 0).
Proof.
  split; [reflexivity|].
  apply (X13_sensor_cycle_due_across_rollover (lib := TableJson.json)
           (mkLoopInput [] (env_at 5000 scenario_adc WL_CONNECTED))
           power_on 0 eq_refl).
  unfold ULONG_MOD. cbn. lia.
Defined.

Lemma X14_witness :
  monotone_clock online_run
  /\ read_times (lib := TableJson.json) online_run power_on = [5000; 10000]
  /\ spaced 5000 (read_times (lib := TableJson.json) online_run power_on).
Proof.
  assert (Hm : monotone_clock online_run).
  { unfold monotone_clock, online_run. cbn. repeat constructor; lia. }
  split; [exact Hm|]. split; [reflexivity|].
  apply (X14_sensor_cycles_spaced (lib := TableJson.json)
           online_run power_on Hm).
Defined.

Lemma X15_witness :
  Forall no_text_frames online_run
  /\ monotone_clock online_run
  /\ toggle_times (lib := TableJson.json) online_run power_on = [5000; 10000]
  /\ spaced 3000 (toggle_times (lib := TableJson.json) online_run power_on).
Proof.
  assert (Hq : Forall no_text_frames online_run).
  { repeat constructor. }
  assert (Hm : monotone_clock online_run).
  { unfold monotone_clock, online_run. cbn. repeat constructor; lia. }
  split; [exact Hq|]. split; [exact Hm|]. split; [reflexivity|].
  apply (X15_page_toggles_spaced_without_frames (lib := TableJson.json)
           online_run power_on Hq Hm).
Defined.

Lemma X16_witness :
  0 <= currentFanSpeed (set_currentScreen 2 (set_currentFanSpeed 128 power_on))
    <= 255
  /\ In (Elcd_print (Int (128 * 100 / 255)))
        (trace (handleScreenUpdate bench_env)
               (set_currentScreen 2 (set_currentFanSpeed 128 power_on))).
Proof.
  assert (Hd : 0 <= currentFanSpeed
                      (set_currentScreen 2 (set_currentFanSpeed 128 power_on))
               <= 255).
  { cbn. lia. }
  split; [exact Hd|].
  apply (X16_fan_percentage_on_page_2 bench_env
           (set_currentScreen 2 (set_currentFanSpeed 128 power_on)) Hd).
  cbn. discriminate.
Defined.

(** An undecodable payload that itself contains a line feed completes
    three lines on the console: two for the receipt, one for the
    failure. *)
Example undecodable_payload_with_line_feed :
  deserializeJson (JsonLib := TableJson.json) ("{" ++ LF)%string
  = inr "IncompleteInput"
  /\ diagnostic_records
       (trace (bench_webSocketEvent bench_env WStype_TEXT ("{" ++ LF)%string)
              power_on) = 3%nat.
Proof. split; reflexivity. Qed.
